(** * typeorm-event-functions: the query / mutation orchestration layer

    A shallow embedding of [functions.ts] (both the plain variant and the
    connection-name-aware variant) and the properties of its
    retrieve / mutate / notify protocols.

    The layer is written against typeorm; typeorm itself is an external
    collaborator.  It is represented by a record of store primitives over an
    abstract database state ([Store]), so that every theorem about the
    orchestration holds for any behaviour of the collaborator.  A small
    in-memory store ([MemStore]) instantiates the interface and is used to
    run the functions on concrete inputs. *)

From Stdlib Require Import ZArith String List.
From stdpp Require Import base option strings gmap list.

Import ListNotations.
Local Open Scope string_scope.
Local Open Scope Z_scope.
Local Open Scope list_scope.

(** ** JavaScript data passed through the layer *)

Inductive Value :=
| VString (s : string)
| VNumber (n : Z)
| VDate (ms : Z)
| VBool (b : bool).

#[global] Instance Value_eq_dec : EqDecision Value.
Proof. solve_decision. Defined.

(** [ObjectLiteral]: a JS object used as a field -> value map. *)
Abbreviation ObjectLiteral := (gmap string Value).

(** [ObjectType<T> | string | Function | (new () => T) | EntitySchema<T>] *)
Inductive Target :=
| TargetName (name : string)
| TargetClass (ctor : string)
| TargetSchema (name : string).

#[global] Instance Target_eq_dec : EqDecision Target.
Proof. solve_decision. Defined.

(** [Brackets | string | ((qb) => string) | ObjectLiteral | ObjectLiteral[]] *)
Inductive Where :=
| WhereBrackets (group : string)
| WhereString (sql : string)
| WhereFunction (body : string)
| WhereObject (o : ObjectLiteral)
| WhereObjects (os : list ObjectLiteral).

(** [string | string[] | number | number[] | Date | Date[] | FindConditions<A>] *)
Inductive Criteria :=
| CriteriaOne (v : Value)
| CriteriaMany (vs : list Value)
| CriteriaFind (fc : ObjectLiteral).

(** [string | number | Date | FindConditions<A>] *)
Inductive Condition :=
| CondString (s : string)
| CondNumber (n : Z)
| CondDate (ms : Z)
| CondFind (fc : ObjectLiteral).

Inductive LockMode := optimistic | pessimistic_read | pessimistic_write.

#[global] Instance LockMode_eq_dec : EqDecision LockMode.
Proof. solve_decision. Defined.

(** [number | Date] *)
Inductive LockVersion :=
| VersionNumber (n : Z)
| VersionDate (ms : Z).

(** JS truthiness of a [lockVersion?: number | Date]: [undefined] and the
    number [0] are falsy, a [Date] object is always truthy.  Version
    counters are integers here; [NaN] is not represented. *)
Definition truthyVersion (v : option LockVersion) : bool :=
  match v with
  | None => false
  | Some (VersionNumber n) => negb (n =? 0)
  | Some (VersionDate _) => true
  end.

(** JS truthiness of an optional number ([takeAmount], [skipAmount]). *)
Definition truthyNumber (n : option Z) : bool :=
  match n with
  | None => false
  | Some k => negb (k =? 0)
  end.

Abbreviation OrderByCondition := (list (string * bool)).
Abbreviation SaveOptions := ObjectLiteral.

(** ** typeorm handles: repositories and query builders

    Builders are plain data: every builder method only records its
    arguments; nothing is executed before [getMany], [getOne], [getCount]
    or [execute]. *)

Record Repository := mkRepository {
  repo_connection : string;
  repo_target : Target
}.

Record SelectQueryBuilder := mkSelect {
  qb_connection : string;
  qb_target : Target;
  (** [setLock(mode)] / [setLock(mode, version)] *)
  qb_lock : option (LockMode * option LockVersion);
  qb_orderBy : option OrderByCondition;
  (** [where(w, parameters)]: [None] until [where] is called, then the two
      arguments as passed (either may be [undefined]) *)
  qb_where : option (option Where * option ObjectLiteral);
  qb_take : option Z;
  qb_skip : option Z
}.

(** [repo.createQueryBuilder()] *)
Definition createQueryBuilder (repo : Repository) : SelectQueryBuilder :=
  mkSelect (repo_connection repo) (repo_target repo) None None None None None.

Definition setLock (mode : LockMode) (version : option LockVersion)
    (qb : SelectQueryBuilder) : SelectQueryBuilder :=
  mkSelect (qb_connection qb) (qb_target qb) (Some (mode, version))
           (qb_orderBy qb) (qb_where qb) (qb_take qb) (qb_skip qb).

Definition orderBy (o : OrderByCondition) (qb : SelectQueryBuilder)
    : SelectQueryBuilder :=
  mkSelect (qb_connection qb) (qb_target qb) (qb_lock qb)
           (Some o) (qb_where qb) (qb_take qb) (qb_skip qb).

Definition where_ (w : option Where) (parameters : option ObjectLiteral)
    (qb : SelectQueryBuilder) : SelectQueryBuilder :=
  mkSelect (qb_connection qb) (qb_target qb) (qb_lock qb)
           (qb_orderBy qb) (Some (w, parameters)) (qb_take qb) (qb_skip qb).

Definition take (n : Z) (qb : SelectQueryBuilder) : SelectQueryBuilder :=
  mkSelect (qb_connection qb) (qb_target qb) (qb_lock qb)
           (qb_orderBy qb) (qb_where qb) (Some n) (qb_skip qb).

Definition skip (n : Z) (qb : SelectQueryBuilder) : SelectQueryBuilder :=
  mkSelect (qb_connection qb) (qb_target qb) (qb_lock qb)
           (qb_orderBy qb) (qb_where qb) (qb_take qb) (Some n).

(** [qb.delete().from(target)], then [.where(w, parameters)] *)
Record DeleteQueryBuilder := mkDelete {
  dq_builder : SelectQueryBuilder;
  dq_from : Target;
  dq_where : option (option Where * option ObjectLiteral)
}.

Definition delete_from (target : Target) (qb : SelectQueryBuilder)
    : DeleteQueryBuilder :=
  mkDelete qb target None.

Definition delete_where (w : option Where) (parameters : option ObjectLiteral)
    (dq : DeleteQueryBuilder) : DeleteQueryBuilder :=
  mkDelete (dq_builder dq) (dq_from dq) (Some (w, parameters)).

(** [qb.update(target).set(values).where(w, parameters)] *)
Record UpdateQueryBuilder := mkUpdate {
  uq_builder : SelectQueryBuilder;
  uq_target : Target;
  uq_set : ObjectLiteral;
  uq_where : option Where * option ObjectLiteral
}.

(** ** Outcomes, events and the effect monad *)

Inductive Exn :=
| Error (message : string)        (* [new Error(message)] thrown by this layer *)
| StoreError (message : string)   (* thrown by the typeorm collaborator *)
| EventError (message : string).  (* thrown or rejected by a [sendEvent] callback *)

Inductive Res (R : Type) :=
| Ok (r : R)
| Throw (e : Exn).
Arguments Ok {R} r.
Arguments Throw {R} e.

(** How a [sendEvent] call is issued: [await sendEvent(x)], or inside
    [forEach(async entry => sendEvent(entry))], whose promises are dropped. *)
Inductive Awaiting := Awaited | Detached.

(** The calls a function issues to its collaborators, in program order.
    [A] is the stored record type, [B] the type handed to [sendEvent]. *)
Inductive Event (A B : Type) :=
| GetRepository (connectionName : string) (target : Target)
| GetMany (qb : SelectQueryBuilder)
| GetOne (qb : SelectQueryBuilder)
| GetCount (qb : SelectQueryBuilder)
| ExecuteDelete (dq : DeleteQueryBuilder)
| ExecuteUpdate (uq : UpdateQueryBuilder)
| RepoFindOne (repo : Repository) (id : Value)
| RepoFindByIds (repo : Repository) (ids : list string)
                (optionsOrConditions : option ObjectLiteral)
| RepoSave (repo : Repository) (entries : list A) (options : option SaveOptions)
| RepoSaveOne (repo : Repository) (entry : A) (options : option SaveOptions)
| RepoUpdate (repo : Repository) (criteria : Criteria) (patch : ObjectLiteral)
| RepoDelete (repo : Repository) (criteria : Criteria)
| SendEvent (how : Awaiting) (entry : B).
Arguments GetRepository {A B}.
Arguments GetMany {A B}.
Arguments GetOne {A B}.
Arguments GetCount {A B}.
Arguments ExecuteDelete {A B}.
Arguments ExecuteUpdate {A B}.
Arguments RepoFindOne {A B}.
Arguments RepoFindByIds {A B}.
Arguments RepoSave {A B}.
Arguments RepoSaveOne {A B}.
Arguments RepoUpdate {A B}.
Arguments RepoDelete {A B}.
Arguments SendEvent {A B}.

(** Store calls proper: query execution, lookups, save, update, delete.
    Resolving a repository and notifying an observer are not. *)
Definition isStoreCall {A B} (e : Event A B) : bool :=
  match e with
  | GetRepository _ _ | SendEvent _ _ => false
  | _ => true
  end.

(** The [sendEvent] calls of a log, in order. *)
Definition notifications {A B} (l : list (Event A B)) : list (Awaiting * B) :=
  omap (fun e => match e with SendEvent how b => Some (how, b) | _ => None end) l.

(** The outcome of running an async function from a database state: the
    calls it issued, the database afterwards and the settled promise. *)
Record Outcome (D E R : Type) := mkOutcome {
  log : list E;
  state : D;
  result : Res R
}.
Arguments mkOutcome {D E R}.
Arguments log {D E R}.
Arguments state {D E R}.
Arguments result {D E R}.

Definition M (D E R : Type) : Type := D -> Outcome D E R.

Definition ret {D E R} (r : R) : M D E R :=
  fun d => mkOutcome [] d (Ok r).

Definition throw {D E R} (e : Exn) : M D E R :=
  fun d => mkOutcome [] d (Throw e).

Definition bind {D E R S} (m : M D E R) (k : R -> M D E S) : M D E S :=
  fun d =>
    let o := m d in
    match result o with
    | Ok r => let o' := k r (state o) in
              mkOutcome (log o ++ log o') (state o') (result o')
    | Throw e => mkOutcome (log o) (state o) (Throw e)
    end.

(** One call to a collaborator: the call is logged, then it settles. *)
Definition call {D E R} (e : E) (op : D -> Res R * D) : M D E R :=
  fun d => let '(r, d') := op d in mkOutcome [e] d' r.

Declare Scope async_scope.
Delimit Scope async_scope with async.
Notation "x <- m ;; k" := (bind m (fun x => k))
  (at level 100, m at next level, right associativity) : async_scope.
Notation "m ;; k" := (bind m (fun _ => k))
  (at level 100, right associativity) : async_scope.
Local Open Scope async_scope.

(** ** The consumed capability interface *)

Record Store (A : Type) := mkStore {
  db : Type;
  (** [getConnection(name).getRepository(target)] *)
  st_getRepository : string -> Target -> db -> Res unit * db;
  st_getMany : SelectQueryBuilder -> db -> Res (list A) * db;
  st_getOne : SelectQueryBuilder -> db -> Res (option A) * db;
  st_getCount : SelectQueryBuilder -> db -> Res Z * db;
  st_executeDelete : DeleteQueryBuilder -> db -> Res unit * db;
  st_executeUpdate : UpdateQueryBuilder -> db -> Res unit * db;
  st_findOne : Repository -> Value -> db -> Res (option A) * db;
  st_findByIds : Repository -> list string -> option ObjectLiteral ->
                 db -> Res (list A) * db;
  st_save : Repository -> list A -> option SaveOptions -> db -> Res (list A) * db;
  st_saveOne : Repository -> A -> option SaveOptions -> db -> Res A * db;
  st_update : Repository -> Criteria -> ObjectLiteral -> db -> Res unit * db;
  st_delete : Repository -> Criteria -> db -> Res unit * db
}.
Arguments db {A}.
Arguments st_getRepository {A}.
Arguments st_getMany {A}.
Arguments st_getOne {A}.
Arguments st_getCount {A}.
Arguments st_executeDelete {A}.
Arguments st_executeUpdate {A}.
Arguments st_findOne {A}.
Arguments st_findByIds {A}.
Arguments st_save {A}.
Arguments st_saveOne {A}.
Arguments st_update {A}.
Arguments st_delete {A}.

(** A notification callback [sendEvent?: (entry: B) => T | Promise<T>]:
    absent, or a function whose promise settles to a value or a failure.
    Its effects lie outside the store; the log records each call. *)
Definition Notify (B T : Type) : Type := option (B -> Res T).

(** [await sendEvent(entry)] *)
Definition awaitSendEvent {D A B T} (f : B -> Res T) (entry : B)
    : M D (Event A B) T :=
  fun d => mkOutcome [SendEvent Awaited entry] d (f entry).

(** [entries.forEach(async entry => sendEvent(entry))]: every entry is
    dispatched in order; the promises, fulfilled or rejected, are dropped. *)
Definition forEachSendEvent {D A B T} (f : B -> Res T) (entries : list B)
    : M D (Event A B) unit :=
  fun d => mkOutcome (map (SendEvent Detached) entries) d (Ok tt).

(** Whether, and how, a settled promise failed. *)
Definition failure {R} (r : Res R) : option Exn :=
  match r with
  | Ok _ => None
  | Throw e => Some e
  end.

(** How the callback, if supplied, fails on [entry]. *)
Definition rejection {B T} (sendEvent : Notify B T) (entry : B) : option Exn :=
  match sendEvent with
  | Some f => failure (f entry)
  | None => None
  end.

(** [if (sendEvent) { await sendEvent(entry); }] *)
Definition awaitIfSupplied {D A B T} (sendEvent : Notify B T) (entry : B)
    : M D (Event A B) unit :=
  match sendEvent with
  | Some f => awaitSendEvent f entry ;; ret tt
  | None => ret tt
  end.

(** [if (sendEvent) { entries.forEach(async entry => sendEvent(entry)); }] *)
Definition forEachIfSupplied {D A B T} (sendEvent : Notify B T)
    (entries : list B) : M D (Event A B) unit :=
  match sendEvent with
  | Some f => forEachSendEvent f entries
  | None => ret tt
  end.

(** When the promise that a callback returns for an entry settles.  The
    time belongs to the observer, not to this layer: it is a parameter of
    the model, and matters only where promises race. *)
Class Clock (B : Type) := settlesAt : B -> nat.

(** The rejection that settles first among promises given with their
    settling times; of two that settle together, the one started first. *)
Fixpoint firstRejection {R} (ps : list (nat * Res R)) : option (nat * Exn) :=
  match ps with
  | [] => None
  | (t, Throw e) :: ps' =>
      match firstRejection ps' with
      | Some (t', e') => if Nat.ltb t' t then Some (t', e') else Some (t, e)
      | None => Some (t, e)
      end
  | (_, Ok _) :: ps' => firstRejection ps'
  end.

Fixpoint fulfilments {R} (ps : list (nat * Res R)) : list R :=
  match ps with
  | [] => []
  | (_, Ok r) :: ps' => r :: fulfilments ps'
  | (_, Throw _) :: ps' => fulfilments ps'
  end.

(** [Promise.all]: rejected with the first rejection in time, as soon as
    there is one; otherwise fulfilled with the values in list order. *)
Definition promiseAll {R} (ps : list (nat * Res R)) : Res (list R) :=
  match firstRejection ps with
  | Some (_, e) => Throw e
  | None => Ok (fulfilments ps)
  end.

(** [await sendEvent(tmp); return tmp;]: the promise of one closure of
    [createAsync] settles to [tmp], or to the failure of the callback. *)
Definition awaitThenReturn {B T} (f : B -> Res T) (tmp : B) : Res B :=
  match f tmp with
  | Ok _ => Ok tmp
  | Throw e => Throw e
  end.

(** The promise of one closure of [createAsync], with the time at which it
    settles: when [sendEvent(tmp)] does. *)
Definition closure {B T} `{Clock B} (f : B -> Res T) (tmp : B)
    : nat * Res B :=
  (settlesAt tmp, awaitThenReturn f tmp).

(** Which values of a type are JS [undefined] or [null]. *)
Class Nullable (B : Type) := nullish : B -> bool.

(** An object is never [undefined] or [null]. *)
#[global] Instance ObjectLiteral_Nullable : Nullable (gmap string Value) :=
  fun _ => false.

(** [X | undefined] *)
#[global] Instance option_Nullable {X} : Nullable (option X) :=
  fun x => match x with
           | Some _ => false
           | None => true
           end.

(** optional-typescript's [Optional<T>], as an [option]. *)
Abbreviation Optional := option (only parsing).

(** [Some(x)]: has a value unless [x] is [undefined] or [null]. *)
Definition SomeOf {B} `{Nullable B} (b : B) : Optional B :=
  if nullish b then None else Some b.

(** [o.map(f)]: [Some(f(value))] when [o] has a value, empty otherwise; so
    a projection that gives [undefined] or [null] gives the empty
    Optional. *)
Definition mapOptional {A B} `{Nullable B} (f : A -> B) (o : Optional A)
    : Optional B :=
  match o with
  | Some a => SomeOf (f a)
  | None => None
  end.

Definition hasValue {B} (o : Optional B) : bool :=
  match o with
  | Some _ => true
  | None => false
  end.

Definition valueOr {B} (o : Optional B) (default : B) : B :=
  match o with
  | Some b => b
  | None => default
  end.

(** ** The plain variant: every call goes to the default connection *)

Module Plain.
Section Functions.
Context {A : Type} (store : Store A).

Definition getRepositoryAsync {B} (target : Target)
    : M (db store) (Event A B) Repository :=
  call (GetRepository "default" target)
       (st_getRepository store "default" target) ;;
  ret (mkRepository "default" target).

Definition createQueryBuilderAsync {B} (target : Target)
    (lockMode : option LockMode) (lockVersion : option LockVersion)
    : M (db store) (Event A B) SelectQueryBuilder :=
  repo <- getRepositoryAsync target ;;
  let queryBuilder := createQueryBuilder repo in
  match lockMode with
  | Some optimistic =>
      if negb (truthyVersion lockVersion)
      then throw (Error "Lock version not specified")
      else ret (setLock optimistic lockVersion queryBuilder)
  | Some pessimistic_read => ret (setLock pessimistic_read None queryBuilder)
  | Some pessimistic_write => ret (setLock pessimistic_write None queryBuilder)
  | None => ret queryBuilder
  end.

Definition simplifiedQueryBuilderAsync {B} (target : Target)
    (lockMode : option LockMode) (lockVersion : option LockVersion)
    : M (db store) (Event A B) SelectQueryBuilder :=
  match lockMode with
  | Some optimistic =>
      if truthyVersion lockVersion
      then createQueryBuilderAsync target (Some optimistic) lockVersion
      else createQueryBuilderAsync target None None
  | Some mode => createQueryBuilderAsync target (Some mode) None
  | None => createQueryBuilderAsync target None None
  end.

Definition deleteQueryBuilderAsync {B} (target : Target)
    (lockMode : option LockMode) (lockVersion : option LockVersion)
    : M (db store) (Event A B) DeleteQueryBuilder :=
  queryBuilder <- simplifiedQueryBuilderAsync target lockMode lockVersion ;;
  ret (delete_from target queryBuilder).

Definition selectQueryBuilderAsync {B} (target : Target) (where' : Where)
    (parameters : option ObjectLiteral)
    (lockMode : option LockMode) (lockVersion : option LockVersion)
    : M (db store) (Event A B) SelectQueryBuilder :=
  queryBuilder <- simplifiedQueryBuilderAsync target lockMode lockVersion ;;
  ret (where_ (Some where') parameters queryBuilder).

Definition deleteEntriesBasedOnConditionPessimisticAsync {T}
    (target : Target) (where' : Where) (sendEvent : Notify A T)
    (parameters : option ObjectLiteral)
    : M (db store) (Event A A) (list A) :=
  select <- selectQueryBuilderAsync target where' parameters None None ;;
  entitiesBeingDeleted <- call (GetMany select) (st_getMany store select) ;;
  forEachIfSupplied sendEvent entitiesBeingDeleted ;;
  builder <- deleteQueryBuilderAsync target (Some pessimistic_write) None ;;
  let delete := delete_where (Some where') parameters builder in
  call (ExecuteDelete delete) (st_executeDelete store delete) ;;
  ret entitiesBeingDeleted.

Definition updateEntriesAsync {T}
    (target : Target) (updateValues : ObjectLiteral) (where' : Where)
    (sendEvent : Notify A T) (parameters : option ObjectLiteral)
    (lockMode : option LockMode) (lockVersion : option LockVersion)
    : M (db store) (Event A A) (list A) :=
  queryBuilder <- simplifiedQueryBuilderAsync target lockMode lockVersion ;;
  let update := mkUpdate queryBuilder target updateValues
                         (Some where', parameters) in
  call (ExecuteUpdate update) (st_executeUpdate store update) ;;
  builder <- selectQueryBuilderAsync target where' None None None ;;
  select <- call (GetMany builder) (st_getMany store builder) ;;
  forEachIfSupplied sendEvent select ;;
  ret select.

(** [condition instanceof Date || typeof condition === "string" ||
    typeof condition === "number"] *)
Definition scalarCondition (condition : option Condition) : option Value :=
  match condition with
  | Some (CondDate ms) => Some (VDate ms)
  | Some (CondString s) => Some (VString s)
  | Some (CondNumber n) => Some (VNumber n)
  | Some (CondFind _) | None => None
  end.

(** The else branch of [findOneAsync]: what is left of [condition] there
    is [undefined] or a [FindConditions] object. *)
Definition structuredCondition (condition : option Condition)
    : option ObjectLiteral :=
  match condition with
  | Some (CondFind fc) => Some fc
  | _ => None
  end.

Definition findOneAsync {B} `{Nullable B} (target : Target) (createFromModel : A -> B)
    (condition : option Condition)
    (orderByCondition : option OrderByCondition)
    : M (db store) (Event A B) (Optional B) :=
  match scalarCondition condition with
  | Some id =>
      repo <- getRepositoryAsync target ;;
      found <- call (RepoFindOne repo id) (st_findOne store repo id) ;;
      ret (mapOptional createFromModel found)
  | None =>
      queryBuilder <- createQueryBuilderAsync target None None ;;
      let queryBuilder :=
        match orderByCondition with
        | Some o => orderBy o queryBuilder
        | None => queryBuilder
        end in
      let queryBuilder :=
        match structuredCondition condition with
        | Some fc => where_ (Some (WhereObject fc)) None queryBuilder
        | None => queryBuilder
        end in
      found <- call (GetOne queryBuilder) (st_getOne store queryBuilder) ;;
      ret (mapOptional createFromModel found)
  end.

Definition getByIdAsync {B} `{Nullable B} (target : Target) (id : string)
    (createFromModel : A -> B) : M (db store) (Event A B) (Optional B) :=
  findOneAsync target createFromModel (Some (CondString id)) None.

Definition anyAsync {B} (target : Target) (condition : option ObjectLiteral)
    : M (db store) (Event A B) bool :=
  queryBuilder <- createQueryBuilderAsync target None None ;;
  let queryBuilder :=
    match condition with
    | Some fc => where_ (Some (WhereObject fc)) None queryBuilder
    | None => queryBuilder
    end in
  count <- call (GetCount queryBuilder) (st_getCount store queryBuilder) ;;
  ret (0 <? count).

Definition findAsync {B} (target : Target) (createFromModel : A -> B)
    (findConditions : option ObjectLiteral)
    (orderByCondition : option OrderByCondition)
    (takeAmount skipAmount : option Z)
    : M (db store) (Event A B) (list B) :=
  queryBuilder <- createQueryBuilderAsync target None None ;;
  let queryBuilder :=
    match orderByCondition with
    | Some o => orderBy o queryBuilder
    | None => queryBuilder
    end in
  let queryBuilder :=
    where_ (option_map WhereObject findConditions) None queryBuilder in
  let queryBuilder :=
    if truthyNumber takeAmount
    then take (valueOr takeAmount 0) queryBuilder else queryBuilder in
  let queryBuilder :=
    if truthyNumber skipAmount
    then skip (valueOr skipAmount 0) queryBuilder else queryBuilder in
  rows <- call (GetMany queryBuilder) (st_getMany store queryBuilder) ;;
  ret (map createFromModel rows).

(** [Promise.all(saved.map(async entry => { const tmp =
    createFromModel(entry); if (sendEvent) { await sendEvent(tmp); }
    return tmp; }))]: [map] starts every closure, so every [sendEvent]
    call is issued before any of them is awaited. *)
Definition createAsync {B T} `{Clock B} (target : Target) (elementsToCreate : list A)
    (createFromModel : A -> B) (sendEvent : Notify B T)
    (options : option SaveOptions) : M (db store) (Event A B) (list B) :=
  repo <- getRepositoryAsync target ;;
  saved <- call (RepoSave repo elementsToCreate options)
                (st_save store repo elementsToCreate options) ;;
  let tmps := map createFromModel saved in
  match sendEvent with
  | Some f =>
      fun d => mkOutcome (map (SendEvent Awaited) tmps) d
                         (promiseAll (map (closure f) tmps))
  | None => ret tmps
  end.

Definition createOneAsync {B T} (target : Target) (elementToCreate : A)
    (createFromModel : A -> B) (sendEvent : Notify B T)
    (options : option SaveOptions) : M (db store) (Event A B) B :=
  repo <- getRepositoryAsync target ;;
  saved <- call (RepoSaveOne repo elementToCreate options)
                (st_saveOne store repo elementToCreate options) ;;
  let element := createFromModel saved in
  awaitIfSupplied sendEvent element ;;
  ret element.

Definition updateAsync {B T} (target : Target) (criteria : Criteria)
    (elementToUpdate : ObjectLiteral)
    (retrievalFunction : M (db store) (Event A B) (Optional B))
    (sendEvent : Notify B T) : M (db store) (Event A B) (Optional B) :=
  updatedEntryOrNone <- retrievalFunction ;;
  match updatedEntryOrNone with
  | None => throw (Error "Not possible to update the given entity")
  | Some entry =>
      repo <- getRepositoryAsync target ;;
      call (RepoUpdate repo criteria elementToUpdate)
           (st_update store repo criteria elementToUpdate) ;;
      awaitIfSupplied sendEvent entry ;;
      retrievalFunction
  end.

Definition updateByIdAsync {B T} `{Nullable B} (target : Target) (id : string)
    (elementToUpdate : ObjectLiteral) (createFromModel : A -> B)
    (sendEvent : Notify B T) : M (db store) (Event A B) (Optional B) :=
  updateAsync target (CriteriaFind {[ "id" := VString id ]}) elementToUpdate
              (getByIdAsync target id createFromModel) sendEvent.

Definition deleteOneAsync {B T} (target : Target) (criteria : Criteria)
    (retrievalFunction : M (db store) (Event A B) (Optional B))
    (sendEvent : Notify B T) : M (db store) (Event A B) (Optional B) :=
  repo <- getRepositoryAsync target ;;
  toBeDeletedOrNone <- retrievalFunction ;;
  match toBeDeletedOrNone with
  | Some entry =>
      call (RepoDelete repo criteria) (st_delete store repo criteria) ;;
      awaitIfSupplied sendEvent entry ;;
      ret toBeDeletedOrNone
  | None => ret toBeDeletedOrNone
  end.

Definition deleteAsync {B T} (target : Target) (criteria : Criteria)
    (retrievalFunction : M (db store) (Event A B) (Optional (list B)))
    (sendEvent : Notify B T) : M (db store) (Event A B) (list B) :=
  repo <- getRepositoryAsync target ;;
  toBeDeletedOrNone <- retrievalFunction ;;
  match toBeDeletedOrNone with
  | Some entries =>
      call (RepoDelete repo criteria) (st_delete store repo criteria) ;;
      forEachIfSupplied sendEvent entries ;;
      ret (valueOr toBeDeletedOrNone [])
  | None => ret (valueOr toBeDeletedOrNone [])
  end.

Definition deleteByIdAsync {B T} `{Nullable B} (target : Target) (id : string)
    (createFromModel : A -> B) (sendEvent : Notify B T)
    : M (db store) (Event A B) (Optional B) :=
  deleteOneAsync target (CriteriaFind {[ "id" := VString id ]})
                 (getByIdAsync target id createFromModel) sendEvent.

Definition findByIdsAsync {B} (target : Target) (createFromModel : A -> B)
    (ids : list string) (optionsOrConditions : option ObjectLiteral)
    : M (db store) (Event A B) (list B) :=
  repo <- getRepositoryAsync target ;;
  found <- call (RepoFindByIds repo ids optionsOrConditions)
                (st_findByIds store repo ids optionsOrConditions) ;;
  ret (map createFromModel found).

Definition findOneAlternativeConditionAsync {B} `{Nullable B} (target : Target)
    (createFromModel : A -> B)
    (condition alternativeCondition : option Condition)
    (orderByCondition : option OrderByCondition)
    : M (db store) (Event A B) (Optional B) :=
  firstOptionOrNone <-
    findOneAsync target createFromModel condition orderByCondition ;;
  if hasValue firstOptionOrNone then ret firstOptionOrNone
  else findOneAsync target createFromModel alternativeCondition
                    orderByCondition.

End Functions.
End Plain.

(** ** The connection-name-aware variant *)

Module Named.
Section Functions.
Context {A : Type} (store : Store A).

(** [connectionName = "default"] in the destructured parameter *)
Definition getRepositoryAsync {B} (target : Target)
    (connectionName : option string)
    : M (db store) (Event A B) Repository :=
  let connectionName := valueOr connectionName "default" in
  call (GetRepository connectionName target)
       (st_getRepository store connectionName target) ;;
  ret (mkRepository connectionName target).

Definition createQueryBuilderAsync {B} (target : Target)
    (lockMode : option LockMode) (lockVersion : option LockVersion)
    (connectionName : option string)
    : M (db store) (Event A B) SelectQueryBuilder :=
  repo <- getRepositoryAsync target connectionName ;;
  let queryBuilder := createQueryBuilder repo in
  match lockMode with
  | Some optimistic =>
      if negb (truthyVersion lockVersion)
      then throw (Error "Lock version not specified")
      else ret (setLock optimistic lockVersion queryBuilder)
  | Some pessimistic_read => ret (setLock pessimistic_read None queryBuilder)
  | Some pessimistic_write => ret (setLock pessimistic_write None queryBuilder)
  | None => ret queryBuilder
  end.

Definition simplifiedQueryBuilderAsync {B} (target : Target)
    (lockMode : option LockMode) (lockVersion : option LockVersion)
    (connectionName : option string)
    : M (db store) (Event A B) SelectQueryBuilder :=
  match lockMode with
  | Some optimistic =>
      if truthyVersion lockVersion
      then createQueryBuilderAsync target (Some optimistic) lockVersion
                                   connectionName
      else createQueryBuilderAsync target None None None
  | Some mode => createQueryBuilderAsync target (Some mode) None None
  | None => createQueryBuilderAsync target None None None
  end.

Definition deleteQueryBuilderAsync {B} (target : Target)
    (lockMode : option LockMode) (lockVersion : option LockVersion)
    : M (db store) (Event A B) DeleteQueryBuilder :=
  queryBuilder <-
    simplifiedQueryBuilderAsync target lockMode lockVersion None ;;
  ret (delete_from target queryBuilder).

Definition selectQueryBuilderAsync {B} (target : Target) (where' : Where)
    (parameters : option ObjectLiteral)
    (lockMode : option LockMode) (lockVersion : option LockVersion)
    (connectionName : option string)
    : M (db store) (Event A B) SelectQueryBuilder :=
  queryBuilder <-
    simplifiedQueryBuilderAsync target lockMode lockVersion connectionName ;;
  ret (where_ (Some where') parameters queryBuilder).

Definition deleteEntriesBasedOnConditionPessimisticAsync {T}
    (target : Target) (where' : Where) (sendEvent : Notify A T)
    (parameters : option ObjectLiteral) (connectionName : option string)
    : M (db store) (Event A A) (list A) :=
  select <- selectQueryBuilderAsync target where' parameters None None
                                    connectionName ;;
  entitiesBeingDeleted <- call (GetMany select) (st_getMany store select) ;;
  forEachIfSupplied sendEvent entitiesBeingDeleted ;;
  builder <- deleteQueryBuilderAsync target (Some pessimistic_write) None ;;
  let delete := delete_where (Some where') parameters builder in
  call (ExecuteDelete delete) (st_executeDelete store delete) ;;
  ret entitiesBeingDeleted.

Definition updateEntriesAsync {T}
    (target : Target) (updateValues : ObjectLiteral) (where' : Where)
    (sendEvent : Notify A T) (parameters : option ObjectLiteral)
    (lockMode : option LockMode) (lockVersion : option LockVersion)
    (connectionName : option string)
    : M (db store) (Event A A) (list A) :=
  queryBuilder <- simplifiedQueryBuilderAsync target lockMode lockVersion
                                              connectionName ;;
  let update := mkUpdate queryBuilder target updateValues
                         (Some where', parameters) in
  call (ExecuteUpdate update) (st_executeUpdate store update) ;;
  builder <- selectQueryBuilderAsync target where' None None None
                                     connectionName ;;
  select <- call (GetMany builder) (st_getMany store builder) ;;
  forEachIfSupplied sendEvent select ;;
  ret select.

Definition findOneAsync {B} `{Nullable B} (target : Target) (createFromModel : A -> B)
    (condition : option Condition)
    (orderByCondition : option OrderByCondition)
    (connectionName : option string)
    : M (db store) (Event A B) (Optional B) :=
  match Plain.scalarCondition condition with
  | Some id =>
      repo <- getRepositoryAsync target connectionName ;;
      found <- call (RepoFindOne repo id) (st_findOne store repo id) ;;
      ret (mapOptional createFromModel found)
  | None =>
      queryBuilder <- createQueryBuilderAsync target None None
                                              connectionName ;;
      let queryBuilder :=
        match orderByCondition with
        | Some o => orderBy o queryBuilder
        | None => queryBuilder
        end in
      let queryBuilder :=
        match Plain.structuredCondition condition with
        | Some fc => where_ (Some (WhereObject fc)) None queryBuilder
        | None => queryBuilder
        end in
      found <- call (GetOne queryBuilder) (st_getOne store queryBuilder) ;;
      ret (mapOptional createFromModel found)
  end.

Definition getByIdAsync {B} `{Nullable B} (target : Target) (id : string)
    (createFromModel : A -> B) (connectionName : option string)
    : M (db store) (Event A B) (Optional B) :=
  findOneAsync target createFromModel (Some (CondString id)) None
               connectionName.

Definition anyAsync {B} (target : Target) (condition : option ObjectLiteral)
    (connectionName : option string) : M (db store) (Event A B) bool :=
  queryBuilder <- createQueryBuilderAsync target None None connectionName ;;
  let queryBuilder :=
    match condition with
    | Some fc => where_ (Some (WhereObject fc)) None queryBuilder
    | None => queryBuilder
    end in
  count <- call (GetCount queryBuilder) (st_getCount store queryBuilder) ;;
  ret (0 <? count).

Definition findAsync {B} (target : Target) (createFromModel : A -> B)
    (findConditions : option ObjectLiteral)
    (orderByCondition : option OrderByCondition)
    (takeAmount skipAmount : option Z) (connectionName : option string)
    : M (db store) (Event A B) (list B) :=
  queryBuilder <- createQueryBuilderAsync target None None connectionName ;;
  let queryBuilder :=
    match orderByCondition with
    | Some o => orderBy o queryBuilder
    | None => queryBuilder
    end in
  let queryBuilder :=
    where_ (option_map WhereObject findConditions) None queryBuilder in
  let queryBuilder :=
    if truthyNumber takeAmount
    then take (valueOr takeAmount 0) queryBuilder else queryBuilder in
  let queryBuilder :=
    if truthyNumber skipAmount
    then skip (valueOr skipAmount 0) queryBuilder else queryBuilder in
  rows <- call (GetMany queryBuilder) (st_getMany store queryBuilder) ;;
  ret (map createFromModel rows).

Definition createAsync {B T} `{Clock B} (target : Target) (elementsToCreate : list A)
    (createFromModel : A -> B) (sendEvent : Notify B T)
    (options : option SaveOptions) (connectionName : option string)
    : M (db store) (Event A B) (list B) :=
  repo <- getRepositoryAsync target connectionName ;;
  saved <- call (RepoSave repo elementsToCreate options)
                (st_save store repo elementsToCreate options) ;;
  let tmps := map createFromModel saved in
  match sendEvent with
  | Some f =>
      fun d => mkOutcome (map (SendEvent Awaited) tmps) d
                         (promiseAll (map (closure f) tmps))
  | None => ret tmps
  end.

Definition createOneAsync {B T} (target : Target) (elementToCreate : A)
    (createFromModel : A -> B) (sendEvent : Notify B T)
    (options : option SaveOptions) (connectionName : option string)
    : M (db store) (Event A B) B :=
  repo <- getRepositoryAsync target connectionName ;;
  saved <- call (RepoSaveOne repo elementToCreate options)
                (st_saveOne store repo elementToCreate options) ;;
  let element := createFromModel saved in
  awaitIfSupplied sendEvent element ;;
  ret element.

Definition updateAsync {B T} (target : Target) (criteria : Criteria)
    (elementToUpdate : ObjectLiteral)
    (retrievalFunction : M (db store) (Event A B) (Optional B))
    (sendEvent : Notify B T) (connectionName : option string)
    : M (db store) (Event A B) (Optional B) :=
  updatedEntryOrNone <- retrievalFunction ;;
  match updatedEntryOrNone with
  | None => throw (Error "Not possible to update the given entity")
  | Some entry =>
      repo <- getRepositoryAsync target connectionName ;;
      call (RepoUpdate repo criteria elementToUpdate)
           (st_update store repo criteria elementToUpdate) ;;
      awaitIfSupplied sendEvent entry ;;
      retrievalFunction
  end.

Definition updateByIdAsync {B T} `{Nullable B} (target : Target) (id : string)
    (elementToUpdate : ObjectLiteral) (createFromModel : A -> B)
    (sendEvent : Notify B T) (connectionName : option string)
    : M (db store) (Event A B) (Optional B) :=
  updateAsync target (CriteriaFind {[ "id" := VString id ]}) elementToUpdate
              (getByIdAsync target id createFromModel connectionName)
              sendEvent connectionName.

Definition deleteOneAsync {B T} (target : Target) (criteria : Criteria)
    (retrievalFunction : M (db store) (Event A B) (Optional B))
    (sendEvent : Notify B T) (connectionName : option string)
    : M (db store) (Event A B) (Optional B) :=
  repo <- getRepositoryAsync target connectionName ;;
  toBeDeletedOrNone <- retrievalFunction ;;
  match toBeDeletedOrNone with
  | Some entry =>
      call (RepoDelete repo criteria) (st_delete store repo criteria) ;;
      awaitIfSupplied sendEvent entry ;;
      ret toBeDeletedOrNone
  | None => ret toBeDeletedOrNone
  end.

Definition deleteAsync {B T} (target : Target) (criteria : Criteria)
    (retrievalFunction : M (db store) (Event A B) (Optional (list B)))
    (sendEvent : Notify B T) (connectionName : option string)
    : M (db store) (Event A B) (list B) :=
  repo <- getRepositoryAsync target connectionName ;;
  toBeDeletedOrNone <- retrievalFunction ;;
  match toBeDeletedOrNone with
  | Some entries =>
      call (RepoDelete repo criteria) (st_delete store repo criteria) ;;
      forEachIfSupplied sendEvent entries ;;
      ret (valueOr toBeDeletedOrNone [])
  | None => ret (valueOr toBeDeletedOrNone [])
  end.

(** The retrieval is [getByIdAsync({ target, id, createFromModel })]: the
    source passes it no [connectionName]. *)
Definition deleteByIdAsync {B T} `{Nullable B} (target : Target) (id : string)
    (createFromModel : A -> B) (sendEvent : Notify B T)
    (connectionName : option string)
    : M (db store) (Event A B) (Optional B) :=
  deleteOneAsync target (CriteriaFind {[ "id" := VString id ]})
                 (getByIdAsync target id createFromModel None)
                 sendEvent connectionName.

Definition findByIdsAsync {B} (target : Target) (createFromModel : A -> B)
    (ids : list string) (optionsOrConditions : option ObjectLiteral)
    (connectionName : option string) : M (db store) (Event A B) (list B) :=
  repo <- getRepositoryAsync target connectionName ;;
  found <- call (RepoFindByIds repo ids optionsOrConditions)
                (st_findByIds store repo ids optionsOrConditions) ;;
  ret (map createFromModel found).

Definition findOneAlternativeConditionAsync {B} `{Nullable B} (target : Target)
    (createFromModel : A -> B)
    (condition alternativeCondition : option Condition)
    (orderByCondition : option OrderByCondition)
    (connectionName : option string)
    : M (db store) (Event A B) (Optional B) :=
  firstOptionOrNone <-
    findOneAsync target createFromModel condition orderByCondition
                 connectionName ;;
  if hasValue firstOptionOrNone then ret firstOptionOrNone
  else findOneAsync target createFromModel alternativeCondition
                    orderByCondition connectionName.

End Functions.
End Named.

(** ** An in-memory store

    A reference instance of the capability interface: connections are named
    sets of tables, a table is the list of its rows, rows are object
    literals with an ["id"] field.  Raw SQL conditions are not interpreted
    (the query fails), ordering clauses are accepted and ignored, and lock
    clauses do not restrict access. *)

Module Mem.

Abbreviation Row := ObjectLiteral.
Abbreviation Tables := (gmap string (list ObjectLiteral)).
Abbreviation Database := (gmap string (gmap string (list ObjectLiteral))).

Definition targetName (t : Target) : string :=
  match t with
  | TargetName n | TargetClass n | TargetSchema n => n
  end.

Definition rowsOf (connection : string) (target : Target) (d : Database)
    : Res (list Row) :=
  match d !! connection with
  | None => Throw (StoreError "ConnectionNotFoundError")
  | Some tables =>
      match tables !! targetName target with
      | None => Throw (StoreError "RepositoryNotFoundError")
      | Some rows => Ok rows
      end
  end.

Definition setRows (connection : string) (target : Target)
    (rows : list Row) (d : Database) : Database :=
  match d !! connection with
  | None => d
  | Some tables => <[connection := <[targetName target := rows]> tables]> d
  end.

Definition matchesObject (fc : ObjectLiteral) (row : Row) : bool :=
  bool_decide (fc ⊆ row).

Definition hasId (id : Value) (row : Row) : bool :=
  bool_decide (row !! "id" = Some id).

Definition whereFilter (w : option (option Where * option ObjectLiteral))
    : Res (Row -> bool) :=
  match w with
  | None | Some (None, _) => Ok (fun _ => true)
  | Some (Some (WhereObject o), _) => Ok (matchesObject o)
  | Some (Some (WhereObjects os), _) =>
      Ok (fun row => existsb (fun o => matchesObject o row) os)
  | Some (Some _, _) => Throw (StoreError "QueryFailedError")
  end.

Definition matchesCriteria (criteria : Criteria) (row : Row) : bool :=
  match criteria with
  | CriteriaOne v => hasId v row
  | CriteriaMany vs => existsb (fun v => hasId v row) vs
  | CriteriaFind fc => matchesObject fc row
  end.

Definition paginate (qb : SelectQueryBuilder) (rows : list Row) : list Row :=
  let rows := match qb_skip qb with
              | Some n => skipn (Z.to_nat n) rows
              | None => rows
              end in
  match qb_take qb with
  | Some n => firstn (Z.to_nat n) rows
  | None => rows
  end.

(** The rows a select builder matches, before pagination. *)
Definition matching (qb : SelectQueryBuilder) (d : Database)
    : Res (list Row) :=
  match rowsOf (qb_connection qb) (qb_target qb) d with
  | Throw e => Throw e
  | Ok rows =>
      match whereFilter (qb_where qb) with
      | Throw e => Throw e
      | Ok f => Ok (List.filter f rows)
      end
  end.

Definition query {R} (f : Database -> Res R) (d : Database)
    : Res R * Database := (f d, d).

Definition modify (connection : string) (target : Target)
    (f : list Row -> Res (list Row)) (d : Database) : Res unit * Database :=
  match rowsOf connection target d with
  | Throw e => (Throw e, d)
  | Ok rows =>
      match f rows with
      | Throw e => (Throw e, d)
      | Ok rows' => (Ok tt, setRows connection target rows' d)
      end
  end.

Definition getRepository (connection : string) (target : Target)
    : Database -> Res unit * Database :=
  query (fun d => match rowsOf connection target d with
                 | Ok _ => Ok tt
                 | Throw e => Throw e
                 end).

Definition getMany (qb : SelectQueryBuilder)
    : Database -> Res (list Row) * Database :=
  query (fun d => match matching qb d with
                 | Ok rows => Ok (paginate qb rows)
                 | Throw e => Throw e
                 end).

Definition getOne (qb : SelectQueryBuilder)
    : Database -> Res (option Row) * Database :=
  query (fun d => match matching qb d with
                 | Ok rows => Ok (head rows)
                 | Throw e => Throw e
                 end).

Definition getCount (qb : SelectQueryBuilder)
    : Database -> Res Z * Database :=
  query (fun d => match matching qb d with
                 | Ok rows => Ok (Z.of_nat (length rows))
                 | Throw e => Throw e
                 end).

Definition executeDelete (dq : DeleteQueryBuilder)
    : Database -> Res unit * Database :=
  modify (qb_connection (dq_builder dq)) (dq_from dq)
        (fun rows => match whereFilter (dq_where dq) with
                     | Ok f => Ok (List.filter (fun row => negb (f row)) rows)
                     | Throw e => Throw e
                     end).

Definition executeUpdate (uq : UpdateQueryBuilder)
    : Database -> Res unit * Database :=
  modify (qb_connection (uq_builder uq)) (uq_target uq)
        (fun rows => match whereFilter (Some (uq_where uq)) with
                     | Ok f => Ok (map (fun row => if f row
                                                   then uq_set uq ∪ row
                                                   else row) rows)
                     | Throw e => Throw e
                     end).

Definition findOne (repo : Repository) (id : Value)
    : Database -> Res (option Row) * Database :=
  query (fun d => match rowsOf (repo_connection repo) (repo_target repo) d with
                 | Ok rows => Ok (List.find (hasId id) rows)
                 | Throw e => Throw e
                 end).

Definition findByIds (repo : Repository) (ids : list string)
    (optionsOrConditions : option ObjectLiteral)
    : Database -> Res (list Row) * Database :=
  query (fun d =>
    match rowsOf (repo_connection repo) (repo_target repo) d with
    | Ok rows =>
        Ok (List.filter
              (fun row =>
                 existsb (fun id => hasId (VString id) row) ids
                 && matchesObject (default ∅ optionsOrConditions) row)
              rows)
    | Throw e => Throw e
    end).

(** [save] inserts, replacing any stored row with the same ["id"]. *)
Definition upsert (entries rows : list Row) : list Row :=
  List.filter
    (fun row => negb (existsb (fun e => bool_decide (e !! "id" = row !! "id"))
                              entries))
    rows ++ entries.

Definition save (repo : Repository) (entries : list Row)
    (options : option SaveOptions) (d : Database)
    : Res (list Row) * Database :=
  match modify (repo_connection repo) (repo_target repo)
              (fun rows => Ok (upsert entries rows)) d with
  | (Ok _, d') => (Ok entries, d')
  | (Throw e, d') => (Throw e, d')
  end.

Definition saveOne (repo : Repository) (entry : Row)
    (options : option SaveOptions) (d : Database) : Res Row * Database :=
  match save repo [entry] options d with
  | (Ok _, d') => (Ok entry, d')
  | (Throw e, d') => (Throw e, d')
  end.

Definition update (repo : Repository) (criteria : Criteria)
    (patch : ObjectLiteral) : Database -> Res unit * Database :=
  modify (repo_connection repo) (repo_target repo)
        (fun rows => Ok (map (fun row => if matchesCriteria criteria row
                                         then patch ∪ row else row) rows)).

Definition delete (repo : Repository) (criteria : Criteria)
    : Database -> Res unit * Database :=
  modify (repo_connection repo) (repo_target repo)
        (fun rows => Ok (List.filter
                           (fun row => negb (matchesCriteria criteria row))
                           rows)).

Definition store : Store Row :=
  mkStore Row Database getRepository getMany getOne getCount
          executeDelete executeUpdate findOne findByIds
          save saveOne update delete.

(** A database with one connection and a two-row [user] table. *)
Definition alice : Row := {[ "id" := VString "1"; "name" := VString "a" ]}.
Definition bob : Row := {[ "id" := VString "2"; "name" := VString "a" ]}.
Definition users : Target := TargetName "user".
Definition db0 : Database :=
  {[ "default" := {[ "user" := [alice; bob] ]} ]}.

Definition named_a : ObjectLiteral := {[ "name" := VString "a" ]}.
Definition rename_b : ObjectLiteral := {[ "name" := VString "b" ]}.
Definition carol : Row := {[ "id" := VString "3"; "name" := VString "c" ]}.

(** Two observers: one that always fulfils, one that always rejects. *)
Definition fulfilled : Row -> Res unit := fun _ => Ok tt.
Definition rejected : Row -> Res unit :=
  fun _ => Throw (EventError "observer down").

(** A projection that is [undefined] on the rows without a ["nick"]
    field: none of the rows here has one. *)
Definition nickname : Row -> option Value := fun row => row !! "nick".

(** The database with an empty [user] table. *)
Definition dbEmpty : Database := {[ "default" := {[ "user" := [] ]} ]}.

(** Two clocks for the observers: one on which every call settles at
    once, one on which the call for carol settles after all others. *)
Definition immediate : Clock Row := fun _ => 0%nat.
Definition carolLast : Clock Row :=
  fun row => if hasId (VString "3") row then 5%nat else 1%nat.

(** An observer that fails on every row, with the row's id as message. *)
Definition rejectedById : Row -> Res unit :=
  fun row => match row !! "id" with
             | Some (VString s) => Throw (EventError s)
             | _ => Throw (EventError "no id")
             end.

(** A database with a second connection, ["reporting"], whose [user]
    table holds one row that the default connection does not have. *)
Definition dave : Row := {[ "id" := VString "4"; "name" := VString "d" ]}.
Definition db1 : Database :=
  {[ "default" := {[ "user" := [alice; bob] ]};
     "reporting" := {[ "user" := [dave] ]} ]}.

(** [db1] once dave, on ["reporting"], has been renamed. *)
Definition db1_renamed : Database :=
  {[ "default" := {[ "user" := [alice; bob] ]};
     "reporting" := {[ "user" := [rename_b ∪ dave] ]} ]}.

(** The in-memory store with every mutation refused. *)
Definition refuse {R} (d : Database) : Res R * Database :=
  (Throw (StoreError "read-only"), d).

Definition readOnly : Store Row :=
  mkStore Row Database getRepository getMany getOne getCount
          (fun _ => refuse) (fun _ => refuse) findOne findByIds
          (fun _ _ _ => refuse) (fun _ _ _ => refuse)
          (fun _ _ _ => refuse) (fun _ _ => refuse).

(** The in-memory store with [getMany] failing. *)
Definition blind : Store Row :=
  mkStore Row Database getRepository
          (fun _ d => (Throw (StoreError "QueryFailedError"), d))
          getOne getCount executeDelete executeUpdate findOne findByIds
          save saveOne update delete.

(** A retrieval for [deleteAsync]: the rows matching a condition. *)
Definition matchingRows (conditions : ObjectLiteral)
    : M Database (Event Row Row) (option (list Row)) :=
  bind (Plain.findAsync store users id (Some conditions) None None None)
       (fun rows => ret (Some rows)).

End Mem.

(** ** Vocabulary of the properties *)

(** The repository handle of [target] on the default connection. *)
Definition repository (target : Target) : Repository :=
  mkRepository "default" target.

(** The part of a log that a notification callback, if supplied, adds. *)
Definition notified {A B T} (sendEvent : Notify B T) (how : Awaiting)
    (entries : list B) : list (Event A B) :=
  match sendEvent with
  | Some _ => map (SendEvent how) entries
  | None => []
  end.

(** A fresh builder on the default connection, ordered when an ordering
    is given. *)
Definition orderedBuilder (target : Target)
    (orderByCondition : option OrderByCondition) : SelectQueryBuilder :=
  mkSelect "default" target None orderByCondition None None None.

(** Calls that bring matched rows into memory. *)
Definition materializesRows {A B} (e : Event A B) : bool :=
  match e with
  | GetMany _ | GetOne _ | RepoFindOne _ _ | RepoFindByIds _ _ _ => true
  | _ => false
  end.

(** A store counts what it would return: on a builder without pagination,
    [getCount] and [getMany] fail together, or the count is the number of
    rows. *)
Definition countsItsRows {A} (store : Store A) : Prop :=
  forall qb d,
    qb_take qb = None -> qb_skip qb = None ->
    match fst (st_getCount store qb d), fst (st_getMany store qb d) with
    | Ok n, Ok rows => n = Z.of_nat (length rows)
    | Throw _, Throw _ => True
    | _, _ => False
    end.

(** [where(undefined)] on a builder that has no condition adds none. *)
Definition whereUndefinedIsNoFilter {A} (store : Store A) : Prop :=
  forall qb d,
    qb_where qb = None ->
    st_getMany store (where_ None None qb) d = st_getMany store qb d.

(** The connections a run resolved repositories on, in order. *)
Definition resolved {A B} (l : list (Event A B)) : list string :=
  omap (fun e => match e with
                 | GetRepository connectionName _ => Some connectionName
                 | _ => None
                 end) l.

(** The repository handle of [target] on a named connection. *)
Definition repositoryOn (connectionName : option string) (target : Target)
    : Repository :=
  mkRepository (valueOr connectionName "default") target.

(** The lock a select builder ends up with for a lock request that
    [createQueryBuilderAsync] accepts. *)
Definition requestedLock (lockMode : option LockMode)
    (lockVersion : option LockVersion)
    : option (LockMode * option LockVersion) :=
  match lockMode with
  | Some optimistic => Some (optimistic, lockVersion)
  | Some mode => Some (mode, None)
  | None => None
  end.

(** A zero [takeAmount] or [skipAmount] counts as not given. *)
Definition nonZero (n : option Z) : option Z :=
  match n with
  | Some 0 => None
  | _ => n
  end.

(** * Properties *)

(** ** Running the monad *)

Lemma bind_Ok {D E R S} (m : M D E R) (k : R -> M D E S) d r :
  result (m d) = Ok r ->
  bind m k d = mkOutcome (log (m d) ++ log (k r (state (m d))))
                         (state (k r (state (m d))))
                         (result (k r (state (m d)))).
Proof. intros H. unfold bind. now rewrite H. Qed.

Lemma call_run {D E R} (e : E) (op : D -> Res R * D) d r d' :
  op d = (r, d') -> call e op d = mkOutcome [e] d' r.
Proof. intros H. unfold call. now rewrite H. Qed.

Lemma awaitIfSupplied_run {D A B T} (sendEvent : Notify B T) entry (d : D) :
  awaitIfSupplied (A:=A) sendEvent entry d
  = mkOutcome (notified sendEvent Awaited [entry]) d
      (match rejection sendEvent entry with
       | None => Ok tt
       | Some e => Throw e
       end).
Proof.
  destruct sendEvent as [f|]; simpl; [|reflexivity].
  unfold bind, awaitSendEvent; simpl.
  destruct (f entry); reflexivity.
Qed.

Lemma forEachIfSupplied_run {D A B T} (sendEvent : Notify B T) entries
    (d : D) :
  forEachIfSupplied (A:=A) sendEvent entries d
  = mkOutcome (notified sendEvent Detached entries) d (Ok tt).
Proof. now destruct sendEvent. Qed.

Section PlainProperties.
Context {A : Type} (store : Store A).

Lemma getRepositoryAsync_run {B} target (d : db store) r d1 :
  st_getRepository store "default" target d = (r, d1) ->
  Plain.getRepositoryAsync (B:=B) store target d
  = mkOutcome [GetRepository "default" target] d1
      (match r with
       | Ok _ => Ok (repository target)
       | Throw e => Throw e
       end).
Proof.
  intros H. unfold Plain.getRepositoryAsync, bind.
  rewrite (call_run _ _ _ _ _ H). simpl.
  destruct r; simpl; reflexivity.
Qed.

(** *** updateAsync *)

Lemma updateAsync_absent {B T} target criteria patch
    (retrieve : M (db store) (Event A B) (Optional B))
    (sendEvent : Notify B T) d :
  result (retrieve d) = Ok None ->
  Plain.updateAsync store target criteria patch retrieve sendEvent d
  = mkOutcome (log (retrieve d)) (state (retrieve d))
      (Throw (Error "Not possible to update the given entity")).
Proof.
  intros H. unfold Plain.updateAsync.
  rewrite (bind_Ok _ _ _ _ H). simpl. now rewrite app_nil_r.
Qed.

Lemma updateAsync_present {B T} target criteria patch
    (retrieve : M (db store) (Event A B) (Optional B))
    (sendEvent : Notify B T) d entry d1 d2 :
  result (retrieve d) = Ok (Some entry) ->
  st_getRepository store "default" target (state (retrieve d)) = (Ok tt, d1) ->
  st_update store (repository target) criteria patch d1 = (Ok tt, d2) ->
  Plain.updateAsync store target criteria patch retrieve sendEvent d
  = match rejection sendEvent entry with
    | None =>
        mkOutcome
          (log (retrieve d)
           ++ [GetRepository "default" target;
               RepoUpdate (repository target) criteria patch]
           ++ notified sendEvent Awaited [entry]
           ++ log (retrieve d2))
          (state (retrieve d2))
          (result (retrieve d2))
    | Some e =>
        mkOutcome
          (log (retrieve d)
           ++ [GetRepository "default" target;
               RepoUpdate (repository target) criteria patch]
           ++ notified sendEvent Awaited [entry])
          d2 (Throw e)
    end.
Proof.
  intros Hfirst Hrepo Hupdate. unfold Plain.updateAsync, bind.
  rewrite Hfirst; simpl.
  rewrite (getRepositoryAsync_run _ _ _ _ Hrepo); simpl.
  rewrite (call_run _ _ _ _ _ Hupdate); simpl.
  rewrite awaitIfSupplied_run; simpl.
  destruct (rejection sendEvent entry); reflexivity.
Qed.

(** C1. [updateAsync] follows the retrieve - validate - mutate - retrieve
    protocol.  It first runs the retrieval.  If that yields no value, it
    throws its "not possible to update" error having issued nothing but
    the retrieval's own calls, so no store update.  If it yields [entry]
    (and the repository resolves and the store update succeeds), it issues
    the repository's [update] with the criteria and the patch and then,
    when a callback is supplied, one [sendEvent] with [entry], the snapshot
    of the first retrieval, and waits for it: if the callback fails the
    operation ends there with that failure; otherwise the retrieval is run
    a second time, on the updated database, and its value is returned. *)
Theorem updateAsync_protocol {B T} target criteria patch
    (retrieve : M (db store) (Event A B) (Optional B))
    (sendEvent : Notify B T) (d : db store) :
  (result (retrieve d) = Ok None ->
     Plain.updateAsync store target criteria patch retrieve sendEvent d
     = mkOutcome (log (retrieve d)) (state (retrieve d))
         (Throw (Error "Not possible to update the given entity")))
  /\
  (forall entry d1 d2,
     result (retrieve d) = Ok (Some entry) ->
     st_getRepository store "default" target (state (retrieve d))
       = (Ok tt, d1) ->
     st_update store (repository target) criteria patch d1 = (Ok tt, d2) ->
     Plain.updateAsync store target criteria patch retrieve sendEvent d
     = match rejection sendEvent entry with
       | None =>
           mkOutcome
             (log (retrieve d)
              ++ [GetRepository "default" target;
                  RepoUpdate (repository target) criteria patch]
              ++ notified sendEvent Awaited [entry]
              ++ log (retrieve d2))
             (state (retrieve d2))
             (result (retrieve d2))
       | Some e =>
           mkOutcome
             (log (retrieve d)
              ++ [GetRepository "default" target;
                  RepoUpdate (repository target) criteria patch]
              ++ notified sendEvent Awaited [entry])
             d2 (Throw e)
       end).
Proof.
  split.
  - apply updateAsync_absent.
  - intros entry d1 d2 Hfirst Hrepo Hupdate.
    unfold Plain.updateAsync, bind.
    rewrite Hfirst; simpl.
    rewrite (getRepositoryAsync_run _ _ _ _ Hrepo); simpl.
    rewrite (call_run _ _ _ _ _ Hupdate); simpl.
    rewrite awaitIfSupplied_run; simpl.
    destruct (rejection sendEvent entry); reflexivity.
Qed.

(** *** deleteOneAsync *)

Lemma deleteOneAsync_absent {B T} target criteria
    (retrieve : M (db store) (Event A B) (Optional B))
    (sendEvent : Notify B T) d d1 :
  st_getRepository store "default" target d = (Ok tt, d1) ->
  result (retrieve d1) = Ok None ->
  Plain.deleteOneAsync store target criteria retrieve sendEvent d
  = mkOutcome (GetRepository "default" target :: log (retrieve d1))
              (state (retrieve d1)) (Ok None).
Proof.
  intros Hrepo Hfirst. unfold Plain.deleteOneAsync, bind.
  rewrite (getRepositoryAsync_run _ _ _ _ Hrepo); simpl.
  rewrite Hfirst; simpl. now rewrite app_nil_r.
Qed.

Lemma deleteOneAsync_present {B T} target criteria
    (retrieve : M (db store) (Event A B) (Optional B))
    (sendEvent : Notify B T) d d1 entry d2 :
  st_getRepository store "default" target d = (Ok tt, d1) ->
  result (retrieve d1) = Ok (Some entry) ->
  st_delete store (repository target) criteria (state (retrieve d1))
    = (Ok tt, d2) ->
  Plain.deleteOneAsync store target criteria retrieve sendEvent d
  = mkOutcome
      (GetRepository "default" target :: log (retrieve d1)
       ++ [RepoDelete (repository target) criteria]
       ++ notified sendEvent Awaited [entry])
      d2
      (match rejection sendEvent entry with
       | None => Ok (Some entry)
       | Some e => Throw e
       end).
Proof.
  intros Hrepo Hfirst Hdelete. unfold Plain.deleteOneAsync, bind.
  rewrite (getRepositoryAsync_run _ _ _ _ Hrepo); simpl.
  rewrite Hfirst; simpl.
  rewrite (call_run _ _ _ _ _ Hdelete); simpl.
  rewrite awaitIfSupplied_run; simpl.
  destruct (rejection sendEvent entry); simpl; [reflexivity|].
  now rewrite app_nil_r.
Qed.


(** *** Query builders *)

Lemma createQueryBuilderAsync_log {B} target lockMode lockVersion
    (d : db store) :
  log (Plain.createQueryBuilderAsync (B:=B) store target lockMode
                                     lockVersion d)
  = [GetRepository "default" target].
Proof.
  unfold Plain.createQueryBuilderAsync, bind.
  destruct (st_getRepository store "default" target d) as [r d1] eqn:Hrepo.
  rewrite (getRepositoryAsync_run _ _ _ _ Hrepo); simpl.
  destruct r; simpl; [|reflexivity].
  destruct lockMode as [[]|]; simpl; try reflexivity.
  destruct (truthyVersion lockVersion); reflexivity.
Qed.

Lemma createQueryBuilderAsync_unlocked {B} target (d d1 : db store) :
  st_getRepository store "default" target d = (Ok tt, d1) ->
  Plain.createQueryBuilderAsync (B:=B) store target None None d
  = mkOutcome [GetRepository "default" target] d1
              (Ok (createQueryBuilder (repository target))).
Proof.
  intros Hrepo. unfold Plain.createQueryBuilderAsync, bind.
  now rewrite (getRepositoryAsync_run _ _ _ _ Hrepo).
Qed.

Lemma createQueryBuilderAsync_pessimistic_write {B} target
    (d d1 : db store) :
  st_getRepository store "default" target d = (Ok tt, d1) ->
  Plain.createQueryBuilderAsync (B:=B) store target
                                (Some pessimistic_write) None d
  = mkOutcome [GetRepository "default" target] d1
      (Ok (setLock pessimistic_write None
                   (createQueryBuilder (repository target)))).
Proof.
  intros Hrepo. unfold Plain.createQueryBuilderAsync, bind.
  now rewrite (getRepositoryAsync_run _ _ _ _ Hrepo).
Qed.

Lemma createQueryBuilderAsync_version_missing {B} target lockVersion
    (d d1 : db store) :
  truthyVersion lockVersion = false ->
  st_getRepository store "default" target d = (Ok tt, d1) ->
  Plain.createQueryBuilderAsync (B:=B) store target (Some optimistic)
                                lockVersion d
  = mkOutcome [GetRepository "default" target] d1
              (Throw (Error "Lock version not specified")).
Proof.
  intros Hversion Hrepo. unfold Plain.createQueryBuilderAsync, bind.
  rewrite (getRepositoryAsync_run _ _ _ _ Hrepo); simpl.
  now rewrite Hversion.
Qed.

Lemma simplifiedQueryBuilderAsync_version_missing {B} target lockVersion
    (d : db store) :
  truthyVersion lockVersion = false ->
  Plain.simplifiedQueryBuilderAsync (B:=B) store target (Some optimistic)
                                    lockVersion d
  = Plain.createQueryBuilderAsync store target None None d.
Proof.
  intros Hversion. unfold Plain.simplifiedQueryBuilderAsync.
  now rewrite Hversion.
Qed.

Lemma simplifiedQueryBuilderAsync_log {B} target lockMode lockVersion
    (d : db store) :
  log (Plain.simplifiedQueryBuilderAsync (B:=B) store target lockMode
                                         lockVersion d)
  = [GetRepository "default" target].
Proof.
  unfold Plain.simplifiedQueryBuilderAsync.
  destruct lockMode as [[]|]; try apply createQueryBuilderAsync_log.
  destruct (truthyVersion lockVersion); apply createQueryBuilderAsync_log.
Qed.

Lemma selectQueryBuilderAsync_unlocked {B} target where' parameters
    (d d1 : db store) :
  st_getRepository store "default" target d = (Ok tt, d1) ->
  Plain.selectQueryBuilderAsync (B:=B) store target where' parameters
                                None None d
  = mkOutcome [GetRepository "default" target] d1
      (Ok (where_ (Some where') parameters
                  (createQueryBuilder (repository target)))).
Proof.
  intros Hrepo.
  unfold Plain.selectQueryBuilderAsync, Plain.simplifiedQueryBuilderAsync,
    bind.
  now rewrite (createQueryBuilderAsync_unlocked _ _ _ Hrepo).
Qed.

Lemma deleteQueryBuilderAsync_pessimistic_write {B} target
    (d d1 : db store) :
  st_getRepository store "default" target d = (Ok tt, d1) ->
  Plain.deleteQueryBuilderAsync (B:=B) store target
                                (Some pessimistic_write) None d
  = mkOutcome [GetRepository "default" target] d1
      (Ok (delete_from target
             (setLock pessimistic_write None
                      (createQueryBuilder (repository target))))).
Proof.
  intros Hrepo.
  unfold Plain.deleteQueryBuilderAsync, Plain.simplifiedQueryBuilderAsync,
    bind.
  now rewrite (createQueryBuilderAsync_pessimistic_write _ _ _ Hrepo).
Qed.

(** C2 (as amended).  With lock mode optimistic and no version token (or
    the falsy token 0), [createQueryBuilderAsync] called directly throws
    "Lock version not specified" once the repository is resolved, and no
    store call has been issued.  The functions built on
    [simplifiedQueryBuilderAsync] do not throw: the builder they get is
    the unlocked one, and [selectQueryBuilderAsync] and
    [updateEntriesAsync] run exactly as they do with no lock at all. *)
Theorem optimistic_without_version {T} target lockVersion where' parameters
    updateValues (sendEvent : Notify A T) (d d1 : db store) :
  truthyVersion lockVersion = false ->
  st_getRepository store "default" target d = (Ok tt, d1) ->
  Plain.createQueryBuilderAsync (B:=A) store target (Some optimistic)
                                lockVersion d
  = mkOutcome [GetRepository "default" target] d1
              (Throw (Error "Lock version not specified"))
  /\ existsb isStoreCall
       (log (Plain.createQueryBuilderAsync (B:=A) store target
               (Some optimistic) lockVersion d)) = false
  /\ Plain.simplifiedQueryBuilderAsync (B:=A) store target (Some optimistic)
                                       lockVersion d
     = mkOutcome [GetRepository "default" target] d1
                 (Ok (createQueryBuilder (repository target)))
  /\ Plain.selectQueryBuilderAsync (B:=A) store target where' parameters
                                   (Some optimistic) lockVersion d
     = Plain.selectQueryBuilderAsync store target where' parameters
                                     None None d
  /\ Plain.updateEntriesAsync store target updateValues where' sendEvent
                              parameters (Some optimistic) lockVersion d
     = Plain.updateEntriesAsync store target updateValues where' sendEvent
                                parameters None None d.
Proof.
  intros Hversion Hrepo.
  rewrite (createQueryBuilderAsync_version_missing _ _ _ _ Hversion Hrepo).
  rewrite (simplifiedQueryBuilderAsync_version_missing _ _ _ Hversion).
  rewrite (createQueryBuilderAsync_unlocked _ _ _ Hrepo).
  repeat split.
  - unfold Plain.selectQueryBuilderAsync, bind.
    now rewrite (simplifiedQueryBuilderAsync_version_missing _ _ _ Hversion).
  - unfold Plain.updateEntriesAsync, bind.
    now rewrite (simplifiedQueryBuilderAsync_version_missing _ _ _ Hversion).
Qed.

(** *** The bulk paths *)

(** The run of the two bulk paths, step by step. *)
Ltac run_deleteEntries Hrepo Hselect Hrepo' Hdelete :=
  unfold Plain.deleteEntriesBasedOnConditionPessimisticAsync, bind;
  rewrite (selectQueryBuilderAsync_unlocked _ _ _ _ _ Hrepo); simpl;
  rewrite (call_run _ _ _ _ _ Hselect); simpl;
  try rewrite forEachIfSupplied_run; simpl;
  rewrite (deleteQueryBuilderAsync_pessimistic_write _ _ _ Hrepo'); simpl;
  rewrite (call_run _ _ _ _ _ Hdelete); simpl.

Ltac run_updateEntries Hbuilder Hupdate Hrepo Hselect :=
  unfold Plain.updateEntriesAsync, bind;
  rewrite Hbuilder; simpl;
  rewrite (call_run _ _ _ _ _ Hupdate); simpl;
  rewrite (selectQueryBuilderAsync_unlocked _ _ _ _ _ Hrepo); simpl;
  rewrite (call_run _ _ _ _ _ Hselect); simpl;
  try rewrite forEachIfSupplied_run; simpl.

(** C5 (as amended).  [deleteEntriesBasedOnConditionPessimisticAsync]
    selects, notifies and then deletes, and only the delete is locked.
    When the repository resolves and both queries succeed, its calls are,
    in order: [getMany] on a select builder that carries the condition
    and its parameters and no lock; one [sendEvent] per selected row,
    dispatched without being awaited, when a callback is supplied;
    [execute] on a delete builder made from a second, fresh query builder
    that is locked [pessimistic_write] and carries the same condition and
    parameters.  It returns the rows selected before the delete. *)
Theorem deleteEntries_select_then_delete {T} target where' parameters
    (sendEvent : Notify A T) (d d1 d2 d3 d4 : db store) rows :
  st_getRepository store "default" target d = (Ok tt, d1) ->
  st_getMany store
    (where_ (Some where') parameters
            (createQueryBuilder (repository target))) d1 = (Ok rows, d2) ->
  st_getRepository store "default" target d2 = (Ok tt, d3) ->
  st_executeDelete store
    (delete_where (Some where') parameters
       (delete_from target
          (setLock pessimistic_write None
                   (createQueryBuilder (repository target))))) d3
    = (Ok tt, d4) ->
  Plain.deleteEntriesBasedOnConditionPessimisticAsync
    store target where' sendEvent parameters d
  = mkOutcome
      ([GetRepository "default" target;
        GetMany (where_ (Some where') parameters
                        (createQueryBuilder (repository target)))]
       ++ notified sendEvent Detached rows
       ++ [GetRepository "default" target;
           ExecuteDelete
             (delete_where (Some where') parameters
                (delete_from target
                   (setLock pessimistic_write None
                            (createQueryBuilder (repository target)))))])
      d4 (Ok rows).
Proof.
  intros Hrepo Hselect Hrepo' Hdelete.
  run_deleteEntries Hrepo Hselect Hrepo' Hdelete.
  reflexivity.
Qed.

(** C10. [updateEntriesAsync] mutates first and notifies with what it
    selects afterwards.  Its first store call is the update itself (no
    retrieval precedes it, and nothing is thrown when no row matches);
    it then selects with a fresh builder carrying the same where
    condition, dispatches one [sendEvent] per re-selected row without
    awaiting it, when a callback is supplied, and returns the re-selected
    rows. *)
Theorem updateEntries_mutate_then_select {T} target updateValues where'
    (sendEvent : Notify A T) parameters lockMode lockVersion
    (d d1 d2 d3 d4 : db store) queryBuilder rows :
  Plain.simplifiedQueryBuilderAsync (B:=A) store target lockMode
                                    lockVersion d
    = mkOutcome [GetRepository "default" target] d1 (Ok queryBuilder) ->
  st_executeUpdate store
    (mkUpdate queryBuilder target updateValues (Some where', parameters)) d1
    = (Ok tt, d2) ->
  st_getRepository store "default" target d2 = (Ok tt, d3) ->
  st_getMany store
    (where_ (Some where') None (createQueryBuilder (repository target))) d3
    = (Ok rows, d4) ->
  Plain.updateEntriesAsync store target updateValues where' sendEvent
                           parameters lockMode lockVersion d
  = mkOutcome
      ([GetRepository "default" target;
        ExecuteUpdate (mkUpdate queryBuilder target updateValues
                                (Some where', parameters));
        GetRepository "default" target;
        GetMany (where_ (Some where') None
                        (createQueryBuilder (repository target)))]
       ++ notified sendEvent Detached rows)
      d4 (Ok rows).
Proof.
  intros Hbuilder Hupdate Hrepo Hselect.
  run_updateEntries Hbuilder Hupdate Hrepo Hselect.
  now rewrite app_nil_r.
Qed.

(** *** The create paths *)

Lemma createOneAsync_run {B T} target elementToCreate
    (createFromModel : A -> B) (sendEvent : Notify B T) options
    (d d1 d2 : db store) saved :
  st_getRepository store "default" target d = (Ok tt, d1) ->
  st_saveOne store (repository target) elementToCreate options d1
    = (Ok saved, d2) ->
  Plain.createOneAsync store target elementToCreate createFromModel
                       sendEvent options d
  = mkOutcome
      ([GetRepository "default" target;
        RepoSaveOne (repository target) elementToCreate options]
       ++ notified sendEvent Awaited [createFromModel saved])
      d2
      (match rejection sendEvent (createFromModel saved) with
       | None => Ok (createFromModel saved)
       | Some e => Throw e
       end).
Proof.
  intros Hrepo Hsave. unfold Plain.createOneAsync, bind.
  rewrite (getRepositoryAsync_run _ _ _ _ Hrepo); simpl.
  rewrite (call_run _ _ _ _ _ Hsave); simpl.
  rewrite awaitIfSupplied_run; simpl.
  destruct (rejection sendEvent (createFromModel saved)); simpl;
    [reflexivity | now rewrite app_nil_r].
Qed.

Lemma createAsync_run {B T} `{Clock B} target elementsToCreate
    (createFromModel : A -> B) (sendEvent : Notify B T) options
    (d d1 d2 : db store) saved :
  st_getRepository store "default" target d = (Ok tt, d1) ->
  st_save store (repository target) elementsToCreate options d1
    = (Ok saved, d2) ->
  Plain.createAsync store target elementsToCreate createFromModel
                    sendEvent options d
  = mkOutcome
      ([GetRepository "default" target;
        RepoSave (repository target) elementsToCreate options]
       ++ notified sendEvent Awaited (map createFromModel saved))
      d2
      (match sendEvent with
       | Some f => promiseAll (map (closure f) (map createFromModel saved))
       | None => Ok (map createFromModel saved)
       end).
Proof.
  intros Hrepo Hsave. unfold Plain.createAsync, bind.
  rewrite (getRepositoryAsync_run _ _ _ _ Hrepo); simpl.
  rewrite (call_run _ _ _ _ _ Hsave); simpl.
  destruct sendEvent; reflexivity.
Qed.

Lemma firstRejection_fulfilled {B T} `{Clock B} (f : B -> Res T)
    (tmps : list B) :
  Forall (fun tmp => failure (f tmp) = None) tmps ->
  firstRejection (map (closure f) tmps) = None
  /\ fulfilments (map (closure f) tmps) = tmps.
Proof.
  induction 1 as [|tmp tmps Htmp _ [IHr IHf]]; simpl; [now split|].
  unfold awaitThenReturn. destruct (f tmp); [|discriminate].
  now rewrite IHr, IHf.
Qed.

Lemma promiseAll_fulfilled {B T} `{Clock B} (f : B -> Res T)
    (tmps : list B) :
  Forall (fun tmp => failure (f tmp) = None) tmps ->
  promiseAll (map (closure f) tmps) = Ok tmps.
Proof.
  intros Hall. unfold promiseAll.
  destruct (firstRejection_fulfilled f tmps Hall) as [-> ->]. reflexivity.
Qed.

(** The rejection [Promise.all] reports is that of a callback call which
    rejected, and no rejecting call settles before it. *)
Lemma firstRejection_first {B T} `{Clock B} (f : B -> Res T) (tmps : list B)
    t e :
  firstRejection (map (closure f) tmps) = Some (t, e) ->
  exists tmp,
    In tmp tmps /\ f tmp = Throw e /\ settlesAt tmp = t
    /\ forall tmp', In tmp' tmps -> failure (f tmp') <> None ->
                    (t <= settlesAt tmp')%nat.
Proof.
  revert t e. induction tmps as [|tmp tmps IH]; simpl; [discriminate|].
  intros t e. unfold awaitThenReturn.
  destruct (f tmp) as [v|e0] eqn:Hf.
  - intros Hfirst. destruct (IH _ _ Hfirst) as (tmp0 & Hin & Hf0 & Ht & Hmin).
    exists tmp0. repeat split; auto.
    intros tmp' [<-|Hin'] Hrej; [now rewrite Hf in Hrej | now apply Hmin].
  - destruct (firstRejection (map (closure f) tmps)) as [[t' e']|] eqn:Hrest.
    + destruct (IH _ _ eq_refl) as (tmp0 & Hin & Hf0 & Ht & Hmin).
      destruct (Nat.ltb_spec t' (settlesAt tmp)) as [Hlt|Hge];
        intros [= <- <-].
      * exists tmp0. repeat split; auto.
        intros tmp' [<-|Hin'] Hrej; [lia | now apply Hmin].
      * exists tmp. repeat split; auto.
        intros tmp' [<-|Hin'] Hrej; [lia|].
        specialize (Hmin tmp' Hin' Hrej). lia.
    + intros [= <- <-]. exists tmp. repeat split; auto.
      intros tmp' [<-|Hin'] Hrej; [lia|]. exfalso.
      clear IH. induction tmps as [|tmp0 tmps IH]; [destruct Hin'|].
      simpl in Hrest. unfold awaitThenReturn in Hrest.
      destruct (f tmp0) eqn:Hf0.
      * destruct Hin' as [<-|Hin']; [now rewrite Hf0 in Hrej | auto].
      * destruct (firstRejection (map (closure f) tmps)) as [[t1 e1]|];
          [destruct (Nat.ltb t1 (settlesAt tmp0))|]; discriminate.
Qed.

Lemma firstRejection_rejected {B T} `{Clock B} (f : B -> Res T)
    (tmps : list B) :
  Exists (fun tmp => failure (f tmp) <> None) tmps ->
  firstRejection (map (closure f) tmps) <> None.
Proof.
  induction 1 as [tmp tmps Htmp|tmp tmps _ IH]; simpl;
    unfold awaitThenReturn; destruct (f tmp); simpl in *; try congruence;
    destruct (firstRejection (map (closure f) tmps)) as [[t' e']|];
    try destruct (Nat.ltb t' (settlesAt tmp)); congruence.
Qed.

Lemma promiseAll_rejected {B T} `{Clock B} (f : B -> Res T)
    (tmps : list B) :
  Exists (fun tmp => failure (f tmp) <> None) tmps ->
  failure (promiseAll (map (closure f) tmps)) <> None.
Proof.
  intros Hsome. unfold promiseAll.
  pose proof (firstRejection_rejected f tmps Hsome) as Hrej.
  destruct (firstRejection (map (closure f) tmps)) as [[t e]|];
    [discriminate | congruence].
Qed.

Lemma promiseAll_first {B T} `{Clock B} (f : B -> Res T) (tmps : list B) e :
  promiseAll (map (closure f) tmps) = Throw e ->
  exists tmp,
    In tmp tmps /\ f tmp = Throw e
    /\ forall tmp', In tmp' tmps -> failure (f tmp') <> None ->
                    (settlesAt tmp <= settlesAt tmp')%nat.
Proof.
  unfold promiseAll.
  destruct (firstRejection (map (closure f) tmps)) as [[t e']|] eqn:Hfirst;
    [|discriminate].
  intros [= <-].
  destruct (firstRejection_first f tmps t e' Hfirst)
    as (tmp & Hin & Hf & <- & Hmin).
  exists tmp. auto.
Qed.

Lemma notifications_app {B} (l1 l2 : list (Event A B)) :
  notifications (l1 ++ l2) = notifications l1 ++ notifications l2.
Proof. apply omap_app. Qed.

Lemma notifications_dispatched {B} how (entries : list B) :
  notifications (A:=A) (map (SendEvent how) entries) = map (pair how) entries.
Proof.
  induction entries as [|entry entries IH]; simpl; [reflexivity|].
  unfold notifications in *; simpl. now rewrite IH.
Qed.

Lemma notifications_notified {B T} (sendEvent : Notify B T) how entries :
  notifications (notified (A:=A) sendEvent how entries)
  = match sendEvent with
    | Some _ => map (pair how) entries
    | None => []
    end.
Proof.
  destruct sendEvent; simpl; [|reflexivity].
  apply notifications_dispatched.
Qed.

(** C6. Which paths wait for their notifications.  [createOneAsync]
    calls [sendEvent] once, awaited: the operation settles only after the
    callback has, and fails exactly when the callback fails.
    [createAsync] issues one awaited [sendEvent] per saved record and
    fulfils, with all the projections, exactly when all of them fulfil.
    [deleteEntriesBasedOnConditionPessimisticAsync] and
    [updateEntriesAsync] dispatch one [sendEvent] per row without
    awaiting it: they return the rows whatever the callbacks do. *)
Theorem notification_awaiting {B T} `{Clock B} target (f : B -> Res T)
    (g : A -> Res T) :
  (forall elementToCreate (createFromModel : A -> B) options
          (d d1 d2 : db store) saved,
     st_getRepository store "default" target d = (Ok tt, d1) ->
     st_saveOne store (repository target) elementToCreate options d1
       = (Ok saved, d2) ->
     notifications
       (log (Plain.createOneAsync store target elementToCreate
               createFromModel (Some f) options d))
     = [(Awaited, createFromModel saved)]
     /\ failure
          (result (Plain.createOneAsync store target elementToCreate
                     createFromModel (Some f) options d))
        = failure (f (createFromModel saved)))
  /\
  (forall elementsToCreate (createFromModel : A -> B) options
          (d d1 d2 : db store) saved,
     st_getRepository store "default" target d = (Ok tt, d1) ->
     st_save store (repository target) elementsToCreate options d1
       = (Ok saved, d2) ->
     notifications
       (log (Plain.createAsync store target elementsToCreate
               createFromModel (Some f) options d))
     = map (pair Awaited) (map createFromModel saved)
     /\ (Forall (fun tmp => failure (f tmp) = None)
                (map createFromModel saved) ->
         result (Plain.createAsync store target elementsToCreate
                   createFromModel (Some f) options d)
         = Ok (map createFromModel saved))
     /\ (Exists (fun tmp => failure (f tmp) <> None)
                (map createFromModel saved) ->
         failure
           (result (Plain.createAsync store target elementsToCreate
                      createFromModel (Some f) options d)) <> None))
  /\
  (forall where' parameters (d d1 d2 d3 d4 : db store) rows,
     st_getRepository store "default" target d = (Ok tt, d1) ->
     st_getMany store
       (where_ (Some where') parameters
               (createQueryBuilder (repository target))) d1
       = (Ok rows, d2) ->
     st_getRepository store "default" target d2 = (Ok tt, d3) ->
     st_executeDelete store
       (delete_where (Some where') parameters
          (delete_from target
             (setLock pessimistic_write None
                      (createQueryBuilder (repository target))))) d3
       = (Ok tt, d4) ->
     notifications
       (log (Plain.deleteEntriesBasedOnConditionPessimisticAsync
               store target where' (Some g) parameters d))
     = map (pair Detached) rows
     /\ result (Plain.deleteEntriesBasedOnConditionPessimisticAsync
                  store target where' (Some g) parameters d)
        = Ok rows)
  /\
  (forall updateValues where' parameters lockMode lockVersion
          (d d1 d2 d3 d4 : db store) queryBuilder rows,
     Plain.simplifiedQueryBuilderAsync (B:=A) store target lockMode
                                       lockVersion d
       = mkOutcome [GetRepository "default" target] d1 (Ok queryBuilder) ->
     st_executeUpdate store
       (mkUpdate queryBuilder target updateValues (Some where', parameters))
       d1 = (Ok tt, d2) ->
     st_getRepository store "default" target d2 = (Ok tt, d3) ->
     st_getMany store
       (where_ (Some where') None (createQueryBuilder (repository target)))
       d3 = (Ok rows, d4) ->
     notifications
       (log (Plain.updateEntriesAsync store target updateValues where'
               (Some g) parameters lockMode lockVersion d))
     = map (pair Detached) rows
     /\ result (Plain.updateEntriesAsync store target updateValues where'
                  (Some g) parameters lockMode lockVersion d)
        = Ok rows).
Proof.
  repeat apply conj.
  - intros * Hrepo Hsave.
    rewrite (createOneAsync_run _ _ _ _ _ _ _ _ _ Hrepo Hsave); simpl.
    split; [reflexivity|].
    destruct (f (createFromModel saved)); reflexivity.
  - intros * Hrepo Hsave.
    rewrite (createAsync_run _ _ _ _ _ _ _ _ _ Hrepo Hsave); simpl.
    repeat apply conj.
    + apply (notifications_notified (Some f) Awaited).
    + apply promiseAll_fulfilled.
    + apply promiseAll_rejected.
  - intros * Hrepo Hselect Hrepo' Hdelete.
    run_deleteEntries Hrepo Hselect Hrepo' Hdelete.
    split; [|reflexivity].
    rewrite notifications_app.
    now rewrite notifications_dispatched, app_nil_r.
  - intros * Hbuilder Hupdate Hrepo Hselect.
    run_updateEntries Hbuilder Hupdate Hrepo Hselect.
    split; [|reflexivity].
    rewrite notifications_app.
    now rewrite notifications_dispatched, app_nil_r.
Qed.

(** *** What a callback can change *)

Lemma awaitIfSupplied_congr {B T} (f g : B -> Res T) entry (d : db store) :
  failure (f entry) = failure (g entry) ->
  awaitIfSupplied (A:=A) (Some f) entry d
  = awaitIfSupplied (Some g) entry d.
Proof.
  intros H. rewrite !awaitIfSupplied_run. simpl. now rewrite H.
Qed.

Lemma awaitThenReturn_congr {B T} (f g : B -> Res T) tmp :
  failure (f tmp) = failure (g tmp) ->
  awaitThenReturn f tmp = awaitThenReturn g tmp.
Proof.
  unfold awaitThenReturn. destruct (f tmp), (g tmp); simpl; congruence.
Qed.

Lemma createOneAsync_congr {B T} (f g : B -> Res T) target elementToCreate
    (createFromModel : A -> B) options (d : db store) :
  (forall b, failure (f b) = failure (g b)) ->
  Plain.createOneAsync store target elementToCreate createFromModel
                       (Some f) options d
  = Plain.createOneAsync store target elementToCreate createFromModel
                         (Some g) options d.
Proof.
  intros H. unfold Plain.createOneAsync, bind.
  destruct (Plain.getRepositoryAsync store target d) as [l1 s1 [repo|e1]];
    cbn [log state result]; [|reflexivity].
  destruct (call _ _ s1) as [l2 s2 [saved|e2]]; cbn [log state result]; [|reflexivity].
  now rewrite (awaitIfSupplied_congr f g _ _ (H _)).
Qed.

Lemma createAsync_congr {B T} `{Clock B} (f g : B -> Res T) target
    elementsToCreate
    (createFromModel : A -> B) options (d : db store) :
  (forall b, failure (f b) = failure (g b)) ->
  Plain.createAsync store target elementsToCreate createFromModel
                    (Some f) options d
  = Plain.createAsync store target elementsToCreate createFromModel
                      (Some g) options d.
Proof.
  intros Hsame. unfold Plain.createAsync, bind.
  destruct (Plain.getRepositoryAsync store target d) as [l1 s1 [repo|e1]];
    cbn [log state result]; [|reflexivity].
  destruct (call _ _ s1) as [l2 s2 [saved|e2]]; cbn [log state result]; [|reflexivity].
  assert (E : map (closure f) (map createFromModel saved)
              = map (closure g) (map createFromModel saved))
    by (apply map_ext; intros tmp; unfold closure;
        now rewrite (awaitThenReturn_congr f g tmp (Hsame tmp))).
  now rewrite E.
Qed.

Lemma updateAsync_congr {B T} (f g : B -> Res T) target criteria patch
    (retrieve : M (db store) (Event A B) (Optional B)) (d : db store) :
  (forall b, failure (f b) = failure (g b)) ->
  Plain.updateAsync store target criteria patch retrieve (Some f) d
  = Plain.updateAsync store target criteria patch retrieve (Some g) d.
Proof.
  intros H. unfold Plain.updateAsync, bind.
  destruct (retrieve d) as [l0 s0 [[entry|]|e0]]; cbn [log state result]; try reflexivity.
  destruct (Plain.getRepositoryAsync store target s0) as [l1 s1 [repo|e1]];
    cbn [log state result]; [|reflexivity].
  destruct (call _ _ s1) as [l2 s2 [[]|e2]]; cbn [log state result]; [|reflexivity].
  now rewrite (awaitIfSupplied_congr f g _ _ (H _)).
Qed.

Lemma deleteOneAsync_congr {B T} (f g : B -> Res T) target criteria
    (retrieve : M (db store) (Event A B) (Optional B)) (d : db store) :
  (forall b, failure (f b) = failure (g b)) ->
  Plain.deleteOneAsync store target criteria retrieve (Some f) d
  = Plain.deleteOneAsync store target criteria retrieve (Some g) d.
Proof.
  intros H. unfold Plain.deleteOneAsync, bind.
  destruct (Plain.getRepositoryAsync store target d) as [l1 s1 [repo|e1]];
    cbn [log state result]; [|reflexivity].
  destruct (retrieve s1) as [l0 s0 [[entry|]|e0]]; cbn [log state result]; try reflexivity.
  destruct (call _ _ s0) as [l2 s2 [[]|e2]]; cbn [log state result]; [|reflexivity].
  now rewrite (awaitIfSupplied_congr f g _ _ (H _)).
Qed.

(** C3 (as amended).  What a callback returns never changes an
    operation: on the awaited paths ([createOneAsync], [createAsync],
    [updateAsync], [deleteOneAsync]) two callbacks that fail on the same
    entries with the same failures (and settle at the same times) give the
    same outcome.  A failure of the callback is not shielded there: it
    rejects the operation, after the store has been changed;
    [createOneAsync], [updateAsync] and [deleteOneAsync] reject with the
    failure of their one callback call, [createAsync] with the failure of
    the callback call that rejects first in time.  Only the paths that
    dispatch without awaiting
    ([deleteEntriesBasedOnConditionPessimisticAsync],
    [updateEntriesAsync], [deleteAsync]) are independent of the callback
    altogether. *)
Theorem callback_outcome {B T} `{Clock B} target (f g : B -> Res T)
    (f' g' : A -> Res T) :
  ((forall b, failure (f b) = failure (g b)) ->
   (forall elementToCreate (createFromModel : A -> B) options d,
      Plain.createOneAsync store target elementToCreate createFromModel
                           (Some f) options d
      = Plain.createOneAsync store target elementToCreate createFromModel
                             (Some g) options d)
   /\ (forall elementsToCreate (createFromModel : A -> B) options d,
         Plain.createAsync store target elementsToCreate createFromModel
                           (Some f) options d
         = Plain.createAsync store target elementsToCreate createFromModel
                             (Some g) options d)
   /\ (forall criteria patch retrieve d,
         Plain.updateAsync store target criteria patch retrieve (Some f) d
         = Plain.updateAsync store target criteria patch retrieve (Some g) d)
   /\ (forall criteria retrieve d,
         Plain.deleteOneAsync store target criteria retrieve (Some f) d
         = Plain.deleteOneAsync store target criteria retrieve (Some g) d))
  /\
  (forall entry e, f entry = Throw e ->
   (forall elementToCreate (createFromModel : A -> B) options
           (d d1 d2 : db store) saved,
      st_getRepository store "default" target d = (Ok tt, d1) ->
      st_saveOne store (repository target) elementToCreate options d1
        = (Ok saved, d2) ->
      createFromModel saved = entry ->
      result (Plain.createOneAsync store target elementToCreate
                createFromModel (Some f) options d) = Throw e
      /\ state (Plain.createOneAsync store target elementToCreate
                  createFromModel (Some f) options d) = d2)
   /\ (forall criteria patch retrieve (d d1 d2 : db store),
         result (retrieve d) = Ok (Some entry) ->
         st_getRepository store "default" target (state (retrieve d))
           = (Ok tt, d1) ->
         st_update store (repository target) criteria patch d1
           = (Ok tt, d2) ->
         result (Plain.updateAsync store target criteria patch retrieve
                   (Some f) d) = Throw e
         /\ state (Plain.updateAsync store target criteria patch retrieve
                     (Some f) d) = d2)
   /\ (forall criteria retrieve (d d1 d2 : db store),
         st_getRepository store "default" target d = (Ok tt, d1) ->
         result (retrieve d1) = Ok (Some entry) ->
         st_delete store (repository target) criteria (state (retrieve d1))
           = (Ok tt, d2) ->
         result (Plain.deleteOneAsync store target criteria retrieve
                   (Some f) d) = Throw e
         /\ state (Plain.deleteOneAsync store target criteria retrieve
                     (Some f) d) = d2))
  /\
  (forall elementsToCreate (createFromModel : A -> B) options
          (d d1 d2 : db store) saved,
     st_getRepository store "default" target d = (Ok tt, d1) ->
     st_save store (repository target) elementsToCreate options d1
       = (Ok saved, d2) ->
     Exists (fun tmp => failure (f tmp) <> None)
            (map createFromModel saved) ->
     exists tmp e,
       In tmp (map createFromModel saved)
       /\ f tmp = Throw e
       /\ (forall tmp', In tmp' (map createFromModel saved) ->
                        failure (f tmp') <> None ->
                        (settlesAt tmp <= settlesAt tmp')%nat)
       /\ result (Plain.createAsync store target elementsToCreate
                    createFromModel (Some f) options d) = Throw e
       /\ state (Plain.createAsync store target elementsToCreate
                   createFromModel (Some f) options d) = d2)
  /\
  ((forall where' parameters d,
      Plain.deleteEntriesBasedOnConditionPessimisticAsync
        store target where' (Some f') parameters d
      = Plain.deleteEntriesBasedOnConditionPessimisticAsync
          store target where' (Some g') parameters d)
   /\ (forall updateValues where' parameters lockMode lockVersion d,
         Plain.updateEntriesAsync store target updateValues where' (Some f')
                                  parameters lockMode lockVersion d
         = Plain.updateEntriesAsync store target updateValues where'
                                    (Some g') parameters lockMode
                                    lockVersion d)
   /\ (forall criteria retrieve d,
         Plain.deleteAsync store target criteria retrieve (Some f) d
         = Plain.deleteAsync store target criteria retrieve (Some g) d)).
Proof.
  repeat apply conj.
  - intros Hsame. repeat apply conj; intros.
    + now apply createOneAsync_congr.
    + now apply createAsync_congr.
    + now apply updateAsync_congr.
    + now apply deleteOneAsync_congr.
  - intros entry e Hf. repeat apply conj.
    + intros * Hrepo Hsave <-.
      rewrite (createOneAsync_run _ _ _ _ _ _ _ _ _ Hrepo Hsave); simpl.
      now rewrite Hf.
    + intros * Hfirst Hrepo Hupdate.
      rewrite (updateAsync_present _ _ _ _ _ _ _ _ _ Hfirst Hrepo Hupdate).
      simpl. now rewrite Hf.
    + intros * Hrepo Hfirst Hdelete.
      rewrite (deleteOneAsync_present _ _ _ _ _ _ _ _ Hrepo Hfirst Hdelete).
      simpl. now rewrite Hf.
  - intros * Hrepo Hsave Hsome.
    rewrite (createAsync_run _ _ _ _ _ _ _ _ _ Hrepo Hsave).
    cbn [log state result].
    pose proof (promiseAll_rejected f _ Hsome) as Hrejected.
    destruct (promiseAll (map (closure f) (map createFromModel saved)))
      as [tmps|e] eqn:Hall; [now destruct Hrejected|].
    destruct (promiseAll_first f _ e Hall) as (tmp & Hin & Hf & Hmin).
    exists tmp, e. auto.
  - reflexivity.
  - reflexivity.
  - reflexivity.
Qed.

(** *** Reads *)

Lemma findOneAsync_scalar {B} `{Nullable B} target
    (createFromModel : A -> B) condition orderByCondition id
    (d d1 d2 : db store) found :
  Plain.scalarCondition condition = Some id ->
  st_getRepository store "default" target d = (Ok tt, d1) ->
  st_findOne store (repository target) id d1 = (Ok found, d2) ->
  Plain.findOneAsync store target createFromModel condition
                     orderByCondition d
  = mkOutcome [GetRepository "default" target;
               RepoFindOne (repository target) id]
              d2 (Ok (mapOptional createFromModel found)).
Proof.
  intros Hscalar Hrepo Hfind. unfold Plain.findOneAsync, bind.
  rewrite Hscalar.
  rewrite (getRepositoryAsync_run _ _ _ _ Hrepo); simpl.
  now rewrite (call_run _ _ _ _ _ Hfind).
Qed.

Lemma findOneAsync_structured {B} `{Nullable B} target
    (createFromModel : A -> B) fc orderByCondition (d d1 d2 : db store)
    found :
  st_getRepository store "default" target d = (Ok tt, d1) ->
  st_getOne store
    (where_ (Some (WhereObject fc)) None
            (orderedBuilder target orderByCondition)) d1 = (Ok found, d2) ->
  Plain.findOneAsync store target createFromModel (Some (CondFind fc))
                     orderByCondition d
  = mkOutcome [GetRepository "default" target;
               GetOne (where_ (Some (WhereObject fc)) None
                              (orderedBuilder target orderByCondition))]
              d2 (Ok (mapOptional createFromModel found)).
Proof.
  intros Hrepo Hone. unfold Plain.findOneAsync, bind.
  cbn [Plain.scalarCondition Plain.structuredCondition].
  rewrite (createQueryBuilderAsync_unlocked _ _ _ Hrepo).
  cbn [log state result].
  destruct orderByCondition; cbn in Hone |- *;
    now rewrite (call_run _ _ _ _ _ Hone).
Qed.

Lemma findOneAsync_unconditioned {B} `{Nullable B} target
    (createFromModel : A -> B) orderByCondition (d d1 d2 : db store) found :
  st_getRepository store "default" target d = (Ok tt, d1) ->
  st_getOne store (orderedBuilder target orderByCondition) d1
    = (Ok found, d2) ->
  Plain.findOneAsync store target createFromModel None orderByCondition d
  = mkOutcome [GetRepository "default" target;
               GetOne (orderedBuilder target orderByCondition)]
              d2 (Ok (mapOptional createFromModel found)).
Proof.
  intros Hrepo Hone. unfold Plain.findOneAsync, bind.
  cbn [Plain.scalarCondition Plain.structuredCondition].
  rewrite (createQueryBuilderAsync_unlocked _ _ _ Hrepo).
  cbn [log state result].
  destruct orderByCondition; cbn in Hone |- *;
    now rewrite (call_run _ _ _ _ _ Hone).
Qed.

(** C8. [findOneAsync] returns the empty Optional, and does not throw,
    when the store finds no record, for every kind of condition.  A
    string, a number and a date are each routed to the repository's direct
    [findOne] with that value.  A structured condition goes through
    [getOne] on a query builder filtered by it, and a missing condition
    through [getOne] on an unfiltered one; in both cases the builder is
    ordered when an ordering is given. *)
Theorem findOneAsync_absent {B} `{Nullable B} target
    (createFromModel : A -> B) orderByCondition (d d1 d2 : db store) :
  st_getRepository store "default" target d = (Ok tt, d1) ->
  (forall s,
     st_findOne store (repository target) (VString s) d1 = (Ok None, d2) ->
     Plain.findOneAsync store target createFromModel (Some (CondString s))
                        orderByCondition d
     = mkOutcome [GetRepository "default" target;
                  RepoFindOne (repository target) (VString s)]
                 d2 (Ok None))
  /\
  (forall n,
     st_findOne store (repository target) (VNumber n) d1 = (Ok None, d2) ->
     Plain.findOneAsync store target createFromModel (Some (CondNumber n))
                        orderByCondition d
     = mkOutcome [GetRepository "default" target;
                  RepoFindOne (repository target) (VNumber n)]
                 d2 (Ok None))
  /\
  (forall ms,
     st_findOne store (repository target) (VDate ms) d1 = (Ok None, d2) ->
     Plain.findOneAsync store target createFromModel (Some (CondDate ms))
                        orderByCondition d
     = mkOutcome [GetRepository "default" target;
                  RepoFindOne (repository target) (VDate ms)]
                 d2 (Ok None))
  /\
  (forall fc,
     st_getOne store
       (where_ (Some (WhereObject fc)) None
               (orderedBuilder target orderByCondition)) d1 = (Ok None, d2) ->
     Plain.findOneAsync store target createFromModel (Some (CondFind fc))
                        orderByCondition d
     = mkOutcome [GetRepository "default" target;
                  GetOne (where_ (Some (WhereObject fc)) None
                                 (orderedBuilder target orderByCondition))]
                 d2 (Ok None))
  /\
  (st_getOne store (orderedBuilder target orderByCondition) d1
     = (Ok None, d2) ->
   Plain.findOneAsync store target createFromModel None orderByCondition d
   = mkOutcome [GetRepository "default" target;
                GetOne (orderedBuilder target orderByCondition)]
               d2 (Ok None)).
Proof.
  intros Hrepo; repeat apply conj.
  - intros s Hfind.
    now rewrite (findOneAsync_scalar _ _ (Some (CondString s)) _ _ _ _ _ _
                   eq_refl Hrepo Hfind).
  - intros n Hfind.
    now rewrite (findOneAsync_scalar _ _ (Some (CondNumber n)) _ _ _ _ _ _
                   eq_refl Hrepo Hfind).
  - intros ms Hfind.
    now rewrite (findOneAsync_scalar _ _ (Some (CondDate ms)) _ _ _ _ _ _
                   eq_refl Hrepo Hfind).
  - intros fc Hone.
    now rewrite (findOneAsync_structured _ _ _ _ _ _ _ _ Hrepo Hone).
  - intros Hone.
    now rewrite (findOneAsync_unconditioned _ _ _ _ _ _ _ Hrepo Hone).
Qed.

Lemma createQueryBuilderAsync_plain {B} target (d d1 : db store) r :
  st_getRepository store "default" target d = (r, d1) ->
  Plain.createQueryBuilderAsync (B:=B) store target None None d
  = mkOutcome [GetRepository "default" target] d1
      (match r with
       | Ok _ => Ok (createQueryBuilder (repository target))
       | Throw e => Throw e
       end).
Proof.
  intros Hrepo. unfold Plain.createQueryBuilderAsync, bind.
  rewrite (getRepositoryAsync_run _ _ _ _ Hrepo); simpl.
  destruct r; reflexivity.
Qed.

Lemma anyAsync_run {B} target condition (d d1 d2 : db store) count :
  st_getRepository store "default" target d = (Ok tt, d1) ->
  st_getCount store
    (match condition with
     | Some fc => where_ (Some (WhereObject fc)) None
                         (createQueryBuilder (repository target))
     | None => createQueryBuilder (repository target)
     end) d1 = (count, d2) ->
  Plain.anyAsync (B:=B) store target condition d
  = mkOutcome
      [GetRepository "default" target;
       GetCount (match condition with
                 | Some fc => where_ (Some (WhereObject fc)) None
                                (createQueryBuilder (repository target))
                 | None => createQueryBuilder (repository target)
                 end)]
      d2
      (match count with
       | Ok n => Ok (0 <? n)
       | Throw e => Throw e
       end).
Proof.
  intros Hrepo Hcount. unfold Plain.anyAsync, bind.
  rewrite (createQueryBuilderAsync_plain _ _ _ _ Hrepo); simpl.
  fold (repository target).
  rewrite (call_run _ _ _ _ _ Hcount); simpl.
  destruct count; reflexivity.
Qed.

Lemma findAsync_unpaginated_run {B} target (createFromModel : A -> B)
    findConditions (d d1 d2 : db store) rows :
  st_getRepository store "default" target d = (Ok tt, d1) ->
  st_getMany store
    (where_ (option_map WhereObject findConditions) None
            (createQueryBuilder (repository target))) d1 = (rows, d2) ->
  Plain.findAsync store target createFromModel findConditions
                  None None None d
  = mkOutcome
      [GetRepository "default" target;
       GetMany (where_ (option_map WhereObject findConditions) None
                       (createQueryBuilder (repository target)))]
      d2
      (match rows with
       | Ok rows => Ok (map createFromModel rows)
       | Throw e => Throw e
       end).
Proof.
  intros Hrepo Hmany. unfold Plain.findAsync, bind.
  rewrite (createQueryBuilderAsync_plain _ _ _ _ Hrepo); simpl.
  fold (repository target).
  rewrite (call_run _ _ _ _ _ Hmany); simpl.
  destruct rows; reflexivity.
Qed.

Lemma anyAsync_materializes_nothing {B} target condition (d : db store) :
  existsb materializesRows
          (log (Plain.anyAsync (B:=B) store target condition d)) = false.
Proof.
  destruct (st_getRepository store "default" target d) as [[[]|e] d1]
    eqn:Hrepo.
  - destruct (st_getCount store
                (match condition with
                 | Some fc => where_ (Some (WhereObject fc)) None
                                (createQueryBuilder (repository target))
                 | None => createQueryBuilder (repository target)
                 end) d1) as [count d2] eqn:Hcount.
    now rewrite (anyAsync_run _ _ _ _ _ _ Hrepo Hcount).
  - unfold Plain.anyAsync, bind.
    now rewrite (createQueryBuilderAsync_plain _ _ _ _ Hrepo).
Qed.

(** C7. [anyAsync] answers whether [findAsync] would find something.
    On a store that counts the rows it would return, and for which
    [where(undefined)] adds no condition, [anyAsync] and [findAsync]
    with the same target and condition (no pagination) fail together or
    both return, and then [anyAsync] returns true exactly when the
    sequence returned by [findAsync] is not empty.  [anyAsync] gets its
    answer as [getCount() > 0] and issues no call that materializes
    rows. *)
Theorem anyAsync_iff_findAsync_nonempty {B} target condition
    (createFromModel : A -> B) (d : db store) :
  countsItsRows store ->
  whereUndefinedIsNoFilter store ->
  match result (Plain.anyAsync (B:=B) store target condition d),
        result (Plain.findAsync store target createFromModel condition
                                None None None d) with
  | Ok any, Ok found => any = true <-> found <> []
  | Throw _, Throw _ => True
  | _, _ => False
  end
  /\ existsb materializesRows
             (log (Plain.anyAsync (B:=B) store target condition d)) = false.
Proof.
  intros Hcounts Hwhere. split; [|apply anyAsync_materializes_nothing].
  destruct (st_getRepository store "default" target d) as [[[]|e] d1]
    eqn:Hrepo.
  - destruct (st_getCount store
                (match condition with
                 | Some fc => where_ (Some (WhereObject fc)) None
                                (createQueryBuilder (repository target))
                 | None => createQueryBuilder (repository target)
                 end) d1) as [count d2] eqn:Hcount.
    destruct (st_getMany store
                (where_ (option_map WhereObject condition) None
                        (createQueryBuilder (repository target))) d1)
      as [rows d3] eqn:Hmany.
    rewrite (anyAsync_run _ _ _ _ _ _ Hrepo Hcount).
    rewrite (findAsync_unpaginated_run _ _ _ _ _ _ _ Hrepo Hmany).
    cbn [result].
    assert (Hrows : match count, rows with
                    | Ok n, Ok rows => n = Z.of_nat (length rows)
                    | Throw _, Throw _ => True
                    | _, _ => False
                    end).
    { destruct condition as [fc|]; simpl in Hcount, Hmany.
      - specialize (Hcounts
          (where_ (Some (WhereObject fc)) None
                  (createQueryBuilder (repository target)))
          d1 eq_refl eq_refl).
        now rewrite Hcount, Hmany in Hcounts.
      - rewrite Hwhere in Hmany by reflexivity.
        specialize (Hcounts (createQueryBuilder (repository target))
                            d1 eq_refl eq_refl).
        now rewrite Hcount, Hmany in Hcounts. }
    destruct count as [n|], rows as [rows|]; try easy.
    subst n. destruct rows as [|row rows]; simpl.
    + split; [discriminate | congruence].
    + split; [discriminate | reflexivity].
  - unfold Plain.anyAsync, Plain.findAsync, bind.
    now rewrite !(createQueryBuilderAsync_plain _ _ _ _ Hrepo).
Qed.

End PlainProperties.

(** ** The connection-name-aware builders *)

Section NamedProperties.
Context {A : Type} (store : Store A).

Lemma named_createQueryBuilderAsync_log {B} target lockMode lockVersion
    connectionName (d : db store) :
  log (Named.createQueryBuilderAsync (B:=B) store target lockMode
                                     lockVersion connectionName d)
  = [GetRepository (valueOr connectionName "default") target].
Proof.
  unfold Named.createQueryBuilderAsync, Named.getRepositoryAsync, bind, call.
  destruct (st_getRepository store _ target d) as [[[]|e] d1]; simpl;
    [|reflexivity].
  destruct lockMode as [[]|]; simpl; try reflexivity.
  destruct (truthyVersion lockVersion); reflexivity.
Qed.

(** Which connection [simplifiedQueryBuilderAsync] resolves: the one
    named only with lock mode optimistic and a version. *)
Lemma named_simplifiedQueryBuilderAsync_log {B} target lockMode lockVersion
    connectionName (d : db store) :
  log (Named.simplifiedQueryBuilderAsync (B:=B) store target lockMode
                                         lockVersion connectionName d)
  = [GetRepository
       (match lockMode with
        | Some optimistic =>
            if truthyVersion lockVersion
            then valueOr connectionName "default" else "default"
        | _ => "default"
        end) target].
Proof.
  unfold Named.simplifiedQueryBuilderAsync.
  destruct lockMode as [[]|];
    try apply named_createQueryBuilderAsync_log.
  destruct (truthyVersion lockVersion);
    apply named_createQueryBuilderAsync_log.
Qed.

(** C9.  On the unlocked path (no lock mode) the connection-name-aware
    [simplifiedQueryBuilderAsync] does not pass [connectionName] on, unlike
    its optimistic-with-version branch.  Whatever connection is named, the
    repository is resolved on the default connection and the outcome is
    the one obtained with no connection name at all. *)
Theorem simplifiedQueryBuilderAsync_unlocked_ignores_connectionName {B}
    target connectionName (d : db store) :
  log (Named.simplifiedQueryBuilderAsync (B:=B) store target None None
                                         (Some connectionName) d)
  = [GetRepository "default" target]
  /\ Named.simplifiedQueryBuilderAsync (B:=B) store target None None
                                       (Some connectionName) d
     = Named.simplifiedQueryBuilderAsync store target None None None d.
Proof.
  split; [|reflexivity].
  apply (named_simplifiedQueryBuilderAsync_log target None None).
Qed.

End NamedProperties.

(** ** The properties at work on the in-memory store *)

Section OnTheMemoryStore.
Import Mem.
#[local] Existing Instance Mem.immediate.

Lemma mem_countsItsRows : countsItsRows Mem.store.
Proof.
  intros qb d Htake Hskip. simpl.
  unfold getCount, getMany, query, paginate; simpl.
  rewrite Htake, Hskip. now destruct (matching qb d).
Qed.

Lemma mem_whereUndefinedIsNoFilter : whereUndefinedIsNoFilter Mem.store.
Proof.
  intros [c t l o w tk sk] d Hw. simpl in Hw. subst w. reflexivity.
Qed.

(** [updateByIdAsync] of a missing id, of a stored id with an observer
    that fulfils, and of a stored id with an observer that fails. *)
Lemma updateAsync_protocol_witness :
  result (Plain.updateByIdAsync Mem.store users "9" rename_b id
                                (Some fulfilled) db0)
  = Throw (Error "Not possible to update the given entity")
  /\ result (Plain.updateByIdAsync Mem.store users "1" rename_b id
                                   (Some fulfilled) db0)
     = Ok (Some (rename_b ∪ alice))
  /\ result (Plain.updateByIdAsync Mem.store users "1" rename_b id
                                   (Some rejected) db0)
     = Throw (EventError "observer down").
Proof.
  split; [|split]; unfold Plain.updateByIdAsync.
  - pose proof (proj1 (updateAsync_protocol Mem.store users
                         (CriteriaFind {[ "id" := VString "9" ]}) rename_b
                         (Plain.getByIdAsync Mem.store users "9" id)
                         (Some fulfilled) db0)) as Habsent.
    rewrite (Habsent eq_refl). reflexivity.
  - pose proof (proj2 (updateAsync_protocol Mem.store users
                         (CriteriaFind {[ "id" := VString "1" ]}) rename_b
                         (Plain.getByIdAsync Mem.store users "1" id)
                         (Some fulfilled) db0)) as Hpresent.
    rewrite (Hpresent alice _ _ eq_refl eq_refl eq_refl). reflexivity.
  - pose proof (proj2 (updateAsync_protocol Mem.store users
                         (CriteriaFind {[ "id" := VString "1" ]}) rename_b
                         (Plain.getByIdAsync Mem.store users "1" id)
                         (Some rejected) db0)) as Hpresent.
    rewrite (Hpresent alice _ _ eq_refl eq_refl eq_refl). reflexivity.
Defined.

(** Optimistic locking with the falsy version 0, on the direct path. *)
Lemma optimistic_without_version_witness :
  result (Plain.createQueryBuilderAsync (B:=Row) Mem.store users
            (Some optimistic) (Some (VersionNumber 0)) db0)
  = Throw (Error "Lock version not specified").
Proof.
  rewrite (proj1 (optimistic_without_version Mem.store (T:=unit) users
                    (Some (VersionNumber 0)) (WhereObject named_a) None
                    rename_b None db0 db0 eq_refl eq_refl)).
  reflexivity.
Defined.

(** C2, counterexample to the statement as written: with lock mode optimistic and no version,
    [selectQueryBuilderAsync] returns a builder, and it carries no lock;
    [updateEntriesAsync] raises nothing, executes the update and returns
    the renamed rows. *)
Lemma optimistic_without_version_builds_unlocked_query :
  result (Plain.selectQueryBuilderAsync (B:=Row) Mem.store users
            (WhereObject named_a) None (Some optimistic) None db0)
  = Ok (mkSelect "default" users None None
                 (Some (Some (WhereObject named_a), None)) None None)
  /\ result (Plain.updateEntriesAsync (T:=unit) Mem.store users rename_b
               (WhereObject (∅ : ObjectLiteral)) None None
               (Some optimistic) None db0)
     = Ok [rename_b ∪ alice; rename_b ∪ bob].
Proof. split; vm_compute; reflexivity. Qed.

(** C3, counterexample to the statement as written: the same [createOneAsync] call returns the
    created record with an observer that fulfils and is rejected with the
    observer's failure when the observer fails. *)
Lemma callback_failure_changes_the_result :
  result (Plain.createOneAsync Mem.store users carol id (Some fulfilled)
                               None db0) = Ok carol
  /\ result (Plain.createOneAsync Mem.store users carol id (Some rejected)
                                  None db0)
     = Throw (EventError "observer down").
Proof. split; vm_compute; reflexivity. Qed.

(** A rejecting observer on [createOneAsync]: the record is saved, the
    operation is rejected.  Two records and an observer that rejects both,
    carol's call settling last: [createAsync] is rejected by a call that
    no rejecting call precedes in time. *)
Lemma callback_outcome_witness :
  (result (Plain.createOneAsync Mem.store users carol id (Some rejected)
                                None db0)
   = Throw (EventError "observer down")
   /\ fst (Mem.findOne (repository users) (VString "3")
             (state (Plain.createOneAsync Mem.store users carol id
                       (Some rejected) None db0)))
      = Ok (Some carol))
  /\
  (exists tmp e,
     In tmp (map id [carol; bob])
     /\ rejectedById tmp = Throw e
     /\ (forall tmp', In tmp' (map id [carol; bob]) ->
                      failure (rejectedById tmp') <> None ->
                      (carolLast tmp <= carolLast tmp')%nat)
     /\ result (Plain.createAsync (H:=carolLast) Mem.store users
                  [carol; bob] id (Some rejectedById) None db0) = Throw e
     /\ state (Plain.createAsync (H:=carolLast) Mem.store users
                 [carol; bob] id (Some rejectedById) None db0)
        = snd (Mem.save (repository users) [carol; bob] None db0)).
Proof.
  split.
  - destruct (proj1 (proj1 (proj2 (callback_outcome Mem.store users
                           rejected rejected rejected rejected))
                        carol (EventError "observer down") eq_refl)
                  carol id None db0 _ _ carol eq_refl eq_refl eq_refl)
      as [Hresult Hstate].
    split; [exact Hresult|]. rewrite Hstate. reflexivity.
  - apply (proj1 (proj2 (proj2 (callback_outcome (H:=carolLast) Mem.store
                                  users rejectedById rejectedById
                                  rejected rejected)))
                 [carol; bob] id None db0 db0 _ [carol; bob]
                 eq_refl eq_refl).
    apply Exists_cons_hd. discriminate.
Defined.

(** [Promise.all] reports the rejection that comes first in time: with
    carol's call settling last, [createAsync] of carol and bob is rejected
    with the failure of bob's call. *)
Lemma createAsync_rejects_with_the_first_in_time :
  result (Plain.createAsync (H:=carolLast) Mem.store users [carol; bob] id
                            (Some rejectedById) None db0)
  = Throw (EventError "2")
  /\ result (Plain.createAsync (H:=immediate) Mem.store users [carol; bob]
                               id (Some rejectedById) None db0)
     = Throw (EventError "3").
Proof. split; reflexivity. Qed.



(** Deleting the two rows named "a": both are returned, none is left. *)
Lemma deleteEntries_select_then_delete_witness :
  result (Plain.deleteEntriesBasedOnConditionPessimisticAsync
            Mem.store users (WhereObject named_a) (Some fulfilled) None db0)
  = Ok [alice; bob]
  /\ Mem.rowsOf "default" users
       (state (Plain.deleteEntriesBasedOnConditionPessimisticAsync
                 Mem.store users (WhereObject named_a) (Some fulfilled)
                 None db0))
     = Ok [].
Proof.
  rewrite (deleteEntries_select_then_delete Mem.store users
             (WhereObject named_a) None (Some fulfilled)
             db0 db0 db0 db0 _ [alice; bob]
             eq_refl eq_refl eq_refl eq_refl).
  split; vm_compute; reflexivity.
Defined.

(** Renaming the two rows named "a": the rows re-selected with the same
    condition are returned, and here none matches any more. *)
Lemma updateEntries_mutate_then_select_witness :
  result (Plain.updateEntriesAsync Mem.store users rename_b
            (WhereObject named_a) (Some fulfilled) None None None db0)
  = Ok [].
Proof.
  rewrite (updateEntries_mutate_then_select Mem.store users rename_b
             (WhereObject named_a) (Some fulfilled) None None None
             db0 db0 _ _ _ (createQueryBuilder (repository users)) []
             eq_refl eq_refl eq_refl eq_refl).
  reflexivity.
Defined.

(** [createOneAsync] with an observer: one awaited notification. *)
Lemma notification_awaiting_witness :
  notifications
    (log (Plain.createOneAsync Mem.store users carol id (Some fulfilled)
                               None db0))
  = [(Awaited, carol)].
Proof.
  exact (proj1 (proj1 (notification_awaiting Mem.store users
                         fulfilled fulfilled)
                      carol id None db0 db0 _ carol eq_refl eq_refl)).
Defined.

(** [anyAsync] and [findAsync] on the rows named "a". *)
Lemma anyAsync_iff_findAsync_nonempty_witness :
  match result (Plain.anyAsync (B:=Row) Mem.store users (Some named_a) db0),
        result (Plain.findAsync Mem.store users id (Some named_a)
                                None None None db0) with
  | Ok any, Ok found => any = true <-> found <> []
  | Throw _, Throw _ => True
  | _, _ => False
  end
  /\ existsb materializesRows
       (log (Plain.anyAsync (B:=Row) Mem.store users (Some named_a) db0))
     = false.
Proof.
  exact (anyAsync_iff_findAsync_nonempty Mem.store users (Some named_a) id
           db0 mem_countsItsRows mem_whereUndefinedIsNoFilter).
Defined.

(** [findOneAsync] of a string, a number and a date that are nobody's id,
    of a structured condition nothing matches, and of no condition on an
    empty table. *)
Lemma findOneAsync_absent_witness :
  result (Plain.findOneAsync Mem.store users id (Some (CondString "9"))
                             None db0) = Ok None
  /\ result (Plain.findOneAsync Mem.store users id (Some (CondNumber 9))
                                None db0) = Ok None
  /\ result (Plain.findOneAsync Mem.store users id (Some (CondDate 9))
                                None db0) = Ok None
  /\ result (Plain.findOneAsync Mem.store users id
                 (Some (CondFind rename_b)) None db0) = Ok None
  /\ result (Plain.findOneAsync Mem.store users id None None dbEmpty)
     = Ok None.
Proof.
  destruct (findOneAsync_absent Mem.store users id None db0 db0 db0 eq_refl)
    as (Hstring & Hnumber & Hdate & Hfind & _).
  destruct (findOneAsync_absent Mem.store users id None dbEmpty dbEmpty
              dbEmpty eq_refl) as (_ & _ & _ & _ & Hnone).
  rewrite (Hstring "9" eq_refl), (Hnumber 9 eq_refl), (Hdate 9 eq_refl),
    (Hfind rename_b eq_refl), (Hnone eq_refl).
  repeat split.
Defined.

(** C5, counterexample to the statement as written: the select is not under a pessimistic write
    lock.  The second call of the run is the [getMany] of a builder whose
    lock is unset; only the delete builder is locked. *)
Lemma deleteEntries_select_is_unlocked :
  log (Plain.deleteEntriesBasedOnConditionPessimisticAsync
         Mem.store users (WhereObject named_a) (Some fulfilled) None db0)
    !! 1%nat
  = Some (GetMany (mkSelect "default" users None None
                            (Some (Some (WhereObject named_a), None))
                            None None))
  /\ qb_lock (mkSelect "default" users None None
                       (Some (Some (WhereObject named_a), None)) None None)
     <> Some (pessimistic_write, None).
Proof. split; [vm_compute; reflexivity | discriminate]. Qed.

End OnTheMemoryStore.

(** * Further properties of the plain variant *)

Section MorePlainProperties.
Context {A : Type} (store : Store A).

(** ** Lookups *)

(** X1. [findOneAlternativeConditionAsync] tries the alternative only when
    the first lookup returns the empty Optional.  A value found by the
    first lookup is returned with no further call; a failure of the first
    lookup is the failure of the whole; otherwise the second lookup runs on
    the state the first one left and its outcome is returned. *)
Theorem findOneAlternative_falls_back {B} `{Nullable B} target
    (createFromModel : A -> B)
    condition alternativeCondition orderByCondition (d : db store) :
  (forall found,
     result (Plain.findOneAsync store target createFromModel condition
                                orderByCondition d) = Ok (Some found) ->
     Plain.findOneAlternativeConditionAsync store target createFromModel
       condition alternativeCondition orderByCondition d
     = Plain.findOneAsync store target createFromModel condition
                          orderByCondition d)
  /\
  (forall e,
     result (Plain.findOneAsync store target createFromModel condition
                                orderByCondition d) = Throw e ->
     Plain.findOneAlternativeConditionAsync store target createFromModel
       condition alternativeCondition orderByCondition d
     = Plain.findOneAsync store target createFromModel condition
                          orderByCondition d)
  /\
  (result (Plain.findOneAsync store target createFromModel condition
                              orderByCondition d) = Ok None ->
   Plain.findOneAlternativeConditionAsync store target createFromModel
     condition alternativeCondition orderByCondition d
   = mkOutcome
       (log (Plain.findOneAsync store target createFromModel condition
                                orderByCondition d)
        ++ log (Plain.findOneAsync store target createFromModel
                  alternativeCondition orderByCondition
                  (state (Plain.findOneAsync store target createFromModel
                            condition orderByCondition d))))
       (state (Plain.findOneAsync store target createFromModel
                 alternativeCondition orderByCondition
                 (state (Plain.findOneAsync store target createFromModel
                           condition orderByCondition d))))
       (result (Plain.findOneAsync store target createFromModel
                  alternativeCondition orderByCondition
                  (state (Plain.findOneAsync store target createFromModel
                            condition orderByCondition d))))).
Proof.
  unfold Plain.findOneAlternativeConditionAsync, bind.
  destruct (Plain.findOneAsync store target createFromModel condition
                               orderByCondition d) as [l s r].
  cbn [log state result]. repeat apply conj.
  - intros found ->. simpl. now rewrite app_nil_r.
  - now intros e ->.
  - now intros ->.
Qed.

(** X12. A record the store finds is returned projected, unless the
    projection is [undefined] or [null].  A string, a number and a date are
    looked up with the repository's direct [findOne], a structured
    condition and a missing condition with [getOne] on a query builder;
    on every route [findOneAsync] returns [createFromModel] of exactly the
    record found, and the empty Optional when that projection is
    [undefined] or [null]. *)
Theorem findOneAsync_present {B} `{Nullable B} target
    (createFromModel : A -> B) orderByCondition (d d1 d2 : db store) found :
  st_getRepository store "default" target d = (Ok tt, d1) ->
  (forall s,
     st_findOne store (repository target) (VString s) d1
       = (Ok (Some found), d2) ->
     Plain.findOneAsync store target createFromModel (Some (CondString s))
                        orderByCondition d
     = mkOutcome [GetRepository "default" target;
                  RepoFindOne (repository target) (VString s)]
                 d2 (Ok (if nullish (createFromModel found) then None
                         else Some (createFromModel found))))
  /\
  (forall n,
     st_findOne store (repository target) (VNumber n) d1
       = (Ok (Some found), d2) ->
     Plain.findOneAsync store target createFromModel (Some (CondNumber n))
                        orderByCondition d
     = mkOutcome [GetRepository "default" target;
                  RepoFindOne (repository target) (VNumber n)]
                 d2 (Ok (if nullish (createFromModel found) then None
                         else Some (createFromModel found))))
  /\
  (forall ms,
     st_findOne store (repository target) (VDate ms) d1
       = (Ok (Some found), d2) ->
     Plain.findOneAsync store target createFromModel (Some (CondDate ms))
                        orderByCondition d
     = mkOutcome [GetRepository "default" target;
                  RepoFindOne (repository target) (VDate ms)]
                 d2 (Ok (if nullish (createFromModel found) then None
                         else Some (createFromModel found))))
  /\
  (forall fc,
     st_getOne store
       (where_ (Some (WhereObject fc)) None
               (orderedBuilder target orderByCondition)) d1
       = (Ok (Some found), d2) ->
     Plain.findOneAsync store target createFromModel (Some (CondFind fc))
                        orderByCondition d
     = mkOutcome [GetRepository "default" target;
                  GetOne (where_ (Some (WhereObject fc)) None
                                 (orderedBuilder target orderByCondition))]
                 d2 (Ok (if nullish (createFromModel found) then None
                         else Some (createFromModel found))))
  /\
  (st_getOne store (orderedBuilder target orderByCondition) d1
     = (Ok (Some found), d2) ->
   Plain.findOneAsync store target createFromModel None orderByCondition d
   = mkOutcome [GetRepository "default" target;
                GetOne (orderedBuilder target orderByCondition)]
               d2 (Ok (if nullish (createFromModel found) then None
                       else Some (createFromModel found)))).
Proof.
  intros Hrepo; repeat apply conj.
  - intros s Hfind.
    now rewrite (findOneAsync_scalar store _ _ (Some (CondString s))
                   _ _ _ _ _ _ eq_refl Hrepo Hfind).
  - intros n Hfind.
    now rewrite (findOneAsync_scalar store _ _ (Some (CondNumber n))
                   _ _ _ _ _ _ eq_refl Hrepo Hfind).
  - intros ms Hfind.
    now rewrite (findOneAsync_scalar store _ _ (Some (CondDate ms))
                   _ _ _ _ _ _ eq_refl Hrepo Hfind).
  - intros fc Hone.
    now rewrite (findOneAsync_structured store _ _ _ _ _ _ _ _ Hrepo Hone).
  - intros Hone.
    now rewrite (findOneAsync_unconditioned store _ _ _ _ _ _ _ Hrepo Hone).
Qed.

(** X8. The query [findAsync] executes.  Once the repository resolves,
    [findAsync] issues exactly one [getMany], on an unlocked builder with
    the ordering as given and the conditions passed to [where] even when
    they are [undefined]; a zero [takeAmount] or [skipAmount] is dropped
    like a missing one, any other is applied.  It returns the projections
    of the rows in the order the store gave them. *)
Theorem findAsync_query {B} target (createFromModel : A -> B) findConditions
    orderByCondition takeAmount skipAmount (d d1 d2 : db store) rows :
  st_getRepository store "default" target d = (Ok tt, d1) ->
  st_getMany store
    (mkSelect "default" target None orderByCondition
              (Some (option_map WhereObject findConditions, None))
              (nonZero takeAmount) (nonZero skipAmount)) d1
    = (Ok rows, d2) ->
  Plain.findAsync store target createFromModel findConditions
                  orderByCondition takeAmount skipAmount d
  = mkOutcome
      [GetRepository "default" target;
       GetMany (mkSelect "default" target None orderByCondition
                         (Some (option_map WhereObject findConditions, None))
                         (nonZero takeAmount) (nonZero skipAmount))]
      d2 (Ok (map createFromModel rows)).
Proof.
  intros Hrepo Hmany. unfold Plain.findAsync, bind.
  rewrite (createQueryBuilderAsync_plain store _ _ _ _ Hrepo).
  cbn [log state result].
  destruct orderByCondition, takeAmount as [[| |]|], skipAmount as [[| |]|];
    simpl in *; now rewrite (call_run _ _ _ _ _ Hmany).
Qed.

(** ** Mutations by id *)

Lemma getByIdAsync_run {B} `{Nullable B} target id
    (createFromModel : A -> B) (d d1 d2 : db store) found :
  st_getRepository store "default" target d = (Ok tt, d1) ->
  st_findOne store (repository target) (VString id) d1 = (Ok found, d2) ->
  Plain.getByIdAsync store target id createFromModel d
  = mkOutcome [GetRepository "default" target;
               RepoFindOne (repository target) (VString id)]
              d2 (Ok (match found with
                      | Some record =>
                          if nullish (createFromModel record) then None
                          else Some (createFromModel record)
                      | None => None
                      end)).
Proof.
  intros Hrepo Hfind. unfold Plain.getByIdAsync.
  rewrite (findOneAsync_scalar store _ _ (Some (CondString id)) _ _ _ _ _ _
             eq_refl Hrepo Hfind).
  now destruct found.
Qed.

(** X3. [updateByIdAsync] looks the record up by id, updates by the
    criteria [{ id }] and looks it up again.  An id the store does not
    find, or finds with a projection that is [undefined] or [null], gives
    the "not possible to update" error after the lookup, with no update
    call.  Otherwise the update is issued and the observer, when supplied,
    is called with the projection of the record as it was before the
    update, and waited for: if it fails the operation ends there with its
    failure, if not the caller gets the projection of what the second
    lookup finds. *)
Theorem updateByIdAsync_by_id {B T} `{Nullable B} target id patch
    (createFromModel : A -> B) (sendEvent : Notify B T) (d d1 d2 : db store) :
  st_getRepository store "default" target d = (Ok tt, d1) ->
  (st_findOne store (repository target) (VString id) d1 = (Ok None, d2) ->
   Plain.updateByIdAsync store target id patch createFromModel sendEvent d
   = mkOutcome [GetRepository "default" target;
                RepoFindOne (repository target) (VString id)]
               d2 (Throw (Error "Not possible to update the given entity")))
  /\
  (forall before,
     st_findOne store (repository target) (VString id) d1
       = (Ok (Some before), d2) ->
     nullish (createFromModel before) = true ->
     Plain.updateByIdAsync store target id patch createFromModel sendEvent d
     = mkOutcome [GetRepository "default" target;
                  RepoFindOne (repository target) (VString id)]
                 d2 (Throw (Error "Not possible to update the given entity")))
  /\
  (forall before (d3 d4 : db store),
     st_findOne store (repository target) (VString id) d1
       = (Ok (Some before), d2) ->
     nullish (createFromModel before) = false ->
     st_getRepository store "default" target d2 = (Ok tt, d3) ->
     st_update store (repository target)
               (CriteriaFind {[ "id" := VString id ]}) patch d3
       = (Ok tt, d4) ->
     (forall e,
        rejection sendEvent (createFromModel before) = Some e ->
        Plain.updateByIdAsync store target id patch createFromModel
                              sendEvent d
        = mkOutcome
            ([GetRepository "default" target;
              RepoFindOne (repository target) (VString id);
              GetRepository "default" target;
              RepoUpdate (repository target)
                         (CriteriaFind {[ "id" := VString id ]}) patch]
             ++ notified sendEvent Awaited [createFromModel before])
            d4 (Throw e))
     /\
     (forall after (d5 d6 : db store),
        rejection sendEvent (createFromModel before) = None ->
        st_getRepository store "default" target d4 = (Ok tt, d5) ->
        st_findOne store (repository target) (VString id) d5
          = (Ok after, d6) ->
        Plain.updateByIdAsync store target id patch createFromModel
                              sendEvent d
        = mkOutcome
            ([GetRepository "default" target;
              RepoFindOne (repository target) (VString id);
              GetRepository "default" target;
              RepoUpdate (repository target)
                         (CriteriaFind {[ "id" := VString id ]}) patch]
             ++ notified sendEvent Awaited [createFromModel before]
             ++ [GetRepository "default" target;
                 RepoFindOne (repository target) (VString id)])
            d6 (Ok (match after with
                    | Some record =>
                        if nullish (createFromModel record) then None
                        else Some (createFromModel record)
                    | None => None
                    end)))).
Proof.
  intros Hrepo; repeat apply conj.
  - intros Hfind.
    pose proof (getByIdAsync_run target id createFromModel _ _ _ _
                  Hrepo Hfind) as Hfirst.
    unfold Plain.updateByIdAsync.
    rewrite (updateAsync_absent store); now rewrite Hfirst.
  - intros before Hfind Hnullish.
    pose proof (getByIdAsync_run target id createFromModel _ _ _ _
                  Hrepo Hfind) as Hfirst.
    cbv beta iota in Hfirst. rewrite Hnullish in Hfirst.
    unfold Plain.updateByIdAsync.
    rewrite (updateAsync_absent store); now rewrite Hfirst.
  - intros before d3 d4 Hfind Hdefined Hrepo' Hupdate.
    pose proof (getByIdAsync_run target id createFromModel _ _ _ _
                  Hrepo Hfind) as Hfirst.
    cbv beta iota in Hfirst. rewrite Hdefined in Hfirst.
    split.
    + intros e Hrejected.
    unfold Plain.updateByIdAsync.
    rewrite (updateAsync_present store _ _ _ _ _ _
               (createFromModel before) d3 d4);
      rewrite ?Hfirst; cbn [log state result]; try assumption;
      try reflexivity.
    now rewrite Hrejected.
    + intros after d5 d6 Hfulfilled Hrepo'' Hfind'.
    pose proof (getByIdAsync_run target id createFromModel _ _ _ _
                  Hrepo'' Hfind') as Hsecond.
    unfold Plain.updateByIdAsync.
    rewrite (updateAsync_present store _ _ _ _ _ _
               (createFromModel before) d3 d4);
      rewrite ?Hfirst; cbn [log state result]; try assumption;
      try reflexivity.
    rewrite Hfulfilled, Hsecond. cbn [log state result].
    reflexivity.
Qed.

(** X4. [deleteByIdAsync] resolves the repository, looks the record up by
    id and deletes by the criteria [{ id }] only if the lookup gave a
    value.  An id the store does not find, or finds with a projection that
    is [undefined] or [null], gives the empty Optional and no delete call.
    Otherwise the delete is issued and the observer, when supplied, is
    called with the projection of the record found before the delete, and
    waited for: the operation fails with the observer's failure, or
    returns that projection. *)
Theorem deleteByIdAsync_by_id {B T} `{Nullable B} target id
    (createFromModel : A -> B) (sendEvent : Notify B T)
    (d d1 d2 d3 : db store) :
  st_getRepository store "default" target d = (Ok tt, d1) ->
  st_getRepository store "default" target d1 = (Ok tt, d2) ->
  (st_findOne store (repository target) (VString id) d2 = (Ok None, d3) ->
   Plain.deleteByIdAsync store target id createFromModel sendEvent d
   = mkOutcome [GetRepository "default" target;
                GetRepository "default" target;
                RepoFindOne (repository target) (VString id)]
               d3 (Ok None))
  /\
  (forall found,
     st_findOne store (repository target) (VString id) d2
       = (Ok (Some found), d3) ->
     nullish (createFromModel found) = true ->
     Plain.deleteByIdAsync store target id createFromModel sendEvent d
     = mkOutcome [GetRepository "default" target;
                  GetRepository "default" target;
                  RepoFindOne (repository target) (VString id)]
                 d3 (Ok None))
  /\
  (forall found (d4 : db store),
     st_findOne store (repository target) (VString id) d2
       = (Ok (Some found), d3) ->
     nullish (createFromModel found) = false ->
     st_delete store (repository target)
               (CriteriaFind {[ "id" := VString id ]}) d3 = (Ok tt, d4) ->
     Plain.deleteByIdAsync store target id createFromModel sendEvent d
     = mkOutcome
         ([GetRepository "default" target;
           GetRepository "default" target;
           RepoFindOne (repository target) (VString id);
           RepoDelete (repository target)
                      (CriteriaFind {[ "id" := VString id ]})]
          ++ notified sendEvent Awaited [createFromModel found])
         d4 (match rejection sendEvent (createFromModel found) with
             | None => Ok (Some (createFromModel found))
             | Some e => Throw e
             end)).
Proof.
  intros Hrepo Hrepo'; repeat apply conj.
  - intros Hfind.
    pose proof (getByIdAsync_run target id createFromModel _ _ _ _
                  Hrepo' Hfind) as Hfirst.
    unfold Plain.deleteByIdAsync.
    rewrite (deleteOneAsync_absent store _ _ _ _ _ _ Hrepo);
      now rewrite Hfirst.
  - intros found Hfind Hnullish.
    pose proof (getByIdAsync_run target id createFromModel _ _ _ _
                  Hrepo' Hfind) as Hfirst.
    cbv beta iota in Hfirst. rewrite Hnullish in Hfirst.
    unfold Plain.deleteByIdAsync.
    rewrite (deleteOneAsync_absent store _ _ _ _ _ _ Hrepo);
      now rewrite Hfirst.
  - intros found d4 Hfind Hdefined Hdelete.
    pose proof (getByIdAsync_run target id createFromModel _ _ _ _
                  Hrepo' Hfind) as Hfirst.
    cbv beta iota in Hfirst. rewrite Hdefined in Hfirst.
    unfold Plain.deleteByIdAsync.
    rewrite (deleteOneAsync_present store _ _ _ _ _ _
               (createFromModel found) d4 Hrepo);
      rewrite ?Hfirst; cbn [log state result]; try assumption;
      reflexivity.
Qed.

(** ** Deleting a collection *)

(** X2. [deleteAsync] deletes when the retrieval has a value, whatever the
    value holds.  With the empty Optional it returns the empty sequence
    and issues no delete.  With a list, an empty one included, it issues
    one repository [delete] with the criteria, dispatches one [sendEvent]
    per retrieved entry without awaiting it, when a callback is supplied,
    and returns the retrieved entries. *)
Theorem deleteAsync_delete_if_present {B T} target criteria
    (retrieve : M (db store) (Event A B) (Optional (list B)))
    (sendEvent : Notify B T) (d d1 : db store) :
  st_getRepository store "default" target d = (Ok tt, d1) ->
  (result (retrieve d1) = Ok None ->
   Plain.deleteAsync store target criteria retrieve sendEvent d
   = mkOutcome (GetRepository "default" target :: log (retrieve d1))
               (state (retrieve d1)) (Ok []))
  /\
  (forall entries d2,
     result (retrieve d1) = Ok (Some entries) ->
     st_delete store (repository target) criteria (state (retrieve d1))
       = (Ok tt, d2) ->
     Plain.deleteAsync store target criteria retrieve sendEvent d
     = mkOutcome
         (GetRepository "default" target :: log (retrieve d1)
          ++ [RepoDelete (repository target) criteria]
          ++ notified sendEvent Detached entries)
         d2 (Ok entries)).
Proof.
  intros Hrepo; split.
  - intros Hfirst. unfold Plain.deleteAsync, bind.
    rewrite (getRepositoryAsync_run store _ _ _ _ Hrepo).
    cbn [log state result]. rewrite Hfirst. simpl. now rewrite app_nil_r.
  - intros entries d2 Hfirst Hdelete. unfold Plain.deleteAsync, bind.
    rewrite (getRepositoryAsync_run store _ _ _ _ Hrepo).
    cbn [log state result]. rewrite Hfirst. cbn [log state result].
    rewrite (call_run _ _ _ _ _ Hdelete). cbn [log state result].
    rewrite forEachIfSupplied_run. simpl. now rewrite app_nil_r.
Qed.

(** ** Query builders *)

Lemma selectQueryBuilderAsync_log {B} target where' parameters lockMode
    lockVersion (d : db store) :
  log (Plain.selectQueryBuilderAsync (B:=B) store target where' parameters
                                     lockMode lockVersion d)
  = [GetRepository "default" target].
Proof.
  unfold Plain.selectQueryBuilderAsync, bind.
  pose proof (simplifiedQueryBuilderAsync_log store (B:=B) target lockMode
                lockVersion d) as Hlog.
  destruct (Plain.simplifiedQueryBuilderAsync store target lockMode
                                              lockVersion d) as [l s [qb|e]];
    cbn [log state result] in *; subst l; reflexivity.
Qed.

Lemma deleteQueryBuilderAsync_log {B} target lockMode lockVersion
    (d : db store) :
  log (Plain.deleteQueryBuilderAsync (B:=B) store target lockMode
                                     lockVersion d)
  = [GetRepository "default" target].
Proof.
  unfold Plain.deleteQueryBuilderAsync, bind.
  pose proof (simplifiedQueryBuilderAsync_log store (B:=B) target lockMode
                lockVersion d) as Hlog.
  destruct (Plain.simplifiedQueryBuilderAsync store target lockMode
                                              lockVersion d) as [l s [qb|e]];
    cbn [log state result] in *; subst l; reflexivity.
Qed.

(** X5. The query-builder functions never execute anything.  For every
    lock request, condition and database state, whether they return a
    builder or throw, the only call [createQueryBuilderAsync],
    [simplifiedQueryBuilderAsync], [selectQueryBuilderAsync] and
    [deleteQueryBuilderAsync] issue is the resolution of the repository on
    the default connection: no store call. *)
Theorem query_builders_execute_nothing {B} target where' parameters lockMode
    lockVersion (d : db store) :
  existsb isStoreCall
    (log (Plain.createQueryBuilderAsync (B:=B) store target lockMode
                                        lockVersion d)) = false
  /\ existsb isStoreCall
       (log (Plain.simplifiedQueryBuilderAsync (B:=B) store target lockMode
                                               lockVersion d)) = false
  /\ existsb isStoreCall
       (log (Plain.selectQueryBuilderAsync (B:=B) store target where'
               parameters lockMode lockVersion d)) = false
  /\ existsb isStoreCall
       (log (Plain.deleteQueryBuilderAsync (B:=B) store target lockMode
                                           lockVersion d)) = false.
Proof.
  rewrite createQueryBuilderAsync_log, simplifiedQueryBuilderAsync_log,
    selectQueryBuilderAsync_log, deleteQueryBuilderAsync_log.
  repeat split.
Qed.

(** X6. Which lock requests [createQueryBuilderAsync] accepts.  Once the
    repository resolves it throws "Lock version not specified" exactly for
    mode optimistic with a missing or zero version.  Every other request
    yields a fresh builder on the default connection, without condition,
    ordering or pagination, locked in the requested mode; the version is
    kept, as given, for optimistic only: a version passed with a
    pessimistic mode is dropped. *)
Theorem createQueryBuilderAsync_lock_request {B} target lockMode lockVersion
    (d d1 : db store) :
  st_getRepository store "default" target d = (Ok tt, d1) ->
  Plain.createQueryBuilderAsync (B:=B) store target lockMode lockVersion d
  = mkOutcome [GetRepository "default" target] d1
      (if bool_decide (lockMode = Some optimistic)
          && negb (truthyVersion lockVersion)
       then Throw (Error "Lock version not specified")
       else Ok (mkSelect "default" target
                         (requestedLock lockMode lockVersion)
                         None None None None)).
Proof.
  intros Hrepo. unfold Plain.createQueryBuilderAsync, bind.
  rewrite (getRepositoryAsync_run store _ _ _ _ Hrepo).
  cbn [log state result].
  destruct lockMode as [[]|]; simpl; try reflexivity.
  destruct (truthyVersion lockVersion); reflexivity.
Qed.

(** X7. [simplifiedQueryBuilderAsync] never throws the lock-version error.
    Once the repository resolves it returns a builder for every lock
    request: locked as [createQueryBuilderAsync] would lock it when the
    request is acceptable, and unlocked when the request is optimistic
    without a usable version. *)
Theorem simplifiedQueryBuilderAsync_always_builds {B} target lockMode
    lockVersion (d d1 : db store) :
  st_getRepository store "default" target d = (Ok tt, d1) ->
  Plain.simplifiedQueryBuilderAsync (B:=B) store target lockMode
                                    lockVersion d
  = mkOutcome [GetRepository "default" target] d1
      (Ok (mkSelect "default" target
             (if bool_decide (lockMode = Some optimistic)
                 && negb (truthyVersion lockVersion)
              then None
              else requestedLock lockMode lockVersion)
             None None None None)).
Proof.
  intros Hrepo. unfold Plain.simplifiedQueryBuilderAsync.
  destruct lockMode as [[]|]; simpl;
    try destruct (truthyVersion lockVersion) eqn:Hversion;
    unfold Plain.createQueryBuilderAsync, bind;
    rewrite (getRepositoryAsync_run store _ _ _ _ Hrepo);
    cbn [log state result]; rewrite ?Hversion; reflexivity.
Qed.

(** ** Mutations and their notifications *)

(** X9. What [updateAsync] returns is what a fresh retrieval returns right
    after it.  When the update goes through and the retrieval does not
    itself change the database, running the retrieval again on the state
    [updateAsync] leaves gives the value [updateAsync] returned. *)
Theorem updateAsync_returns_fresh_retrieval {B T} target criteria patch
    (retrieve : M (db store) (Event A B) (Optional B))
    (sendEvent : Notify B T) (d d1 d2 : db store) entry :
  result (retrieve d) = Ok (Some entry) ->
  st_getRepository store "default" target (state (retrieve d)) = (Ok tt, d1) ->
  st_update store (repository target) criteria patch d1 = (Ok tt, d2) ->
  rejection sendEvent entry = None ->
  state (retrieve d2) = d2 ->
  result (retrieve
            (state (Plain.updateAsync store target criteria patch retrieve
                                      sendEvent d)))
  = result (Plain.updateAsync store target criteria patch retrieve
                              sendEvent d).
Proof.
  intros Hfirst Hrepo Hupdate Hnotify Hreadonly.
  rewrite (updateAsync_present store _ _ _ _ _ _ _ _ _ Hfirst Hrepo Hupdate).
  rewrite Hnotify. cbn [log state result]. now rewrite Hreadonly.
Qed.

(** X10. A mutation that fails notifies nobody.  When the store rejects
    the save, update or delete, [createOneAsync], [createAsync],
    [updateAsync], [deleteOneAsync] and [deleteAsync] throw the store's
    failure and the mutating call is the last call they issue: no
    [sendEvent], and for [updateAsync] no second retrieval. *)
Theorem failed_mutation_sends_nothing {B T} `{Clock B} target
    (sendEvent : Notify B T) e :
  (forall elementToCreate (createFromModel : A -> B) options
          (d d1 d2 : db store),
     st_getRepository store "default" target d = (Ok tt, d1) ->
     st_saveOne store (repository target) elementToCreate options d1
       = (Throw e, d2) ->
     Plain.createOneAsync store target elementToCreate createFromModel
                          sendEvent options d
     = mkOutcome [GetRepository "default" target;
                  RepoSaveOne (repository target) elementToCreate options]
                 d2 (Throw e))
  /\
  (forall elementsToCreate (createFromModel : A -> B) options
          (d d1 d2 : db store),
     st_getRepository store "default" target d = (Ok tt, d1) ->
     st_save store (repository target) elementsToCreate options d1
       = (Throw e, d2) ->
     Plain.createAsync store target elementsToCreate createFromModel
                       sendEvent options d
     = mkOutcome [GetRepository "default" target;
                  RepoSave (repository target) elementsToCreate options]
                 d2 (Throw e))
  /\
  (forall criteria patch retrieve (d d1 d2 : db store) entry,
     result (retrieve d) = Ok (Some entry) ->
     st_getRepository store "default" target (state (retrieve d))
       = (Ok tt, d1) ->
     st_update store (repository target) criteria patch d1 = (Throw e, d2) ->
     Plain.updateAsync store target criteria patch retrieve sendEvent d
     = mkOutcome (log (retrieve d)
                  ++ [GetRepository "default" target;
                      RepoUpdate (repository target) criteria patch])
                 d2 (Throw e))
  /\
  (forall criteria retrieve (d d1 d2 : db store) entry,
     st_getRepository store "default" target d = (Ok tt, d1) ->
     result (retrieve d1) = Ok (Some entry) ->
     st_delete store (repository target) criteria (state (retrieve d1))
       = (Throw e, d2) ->
     Plain.deleteOneAsync store target criteria retrieve sendEvent d
     = mkOutcome (GetRepository "default" target :: log (retrieve d1)
                  ++ [RepoDelete (repository target) criteria])
                 d2 (Throw e))
  /\
  (forall criteria retrieve (d d1 d2 : db store) entries,
     st_getRepository store "default" target d = (Ok tt, d1) ->
     result (retrieve d1) = Ok (Some entries) ->
     st_delete store (repository target) criteria (state (retrieve d1))
       = (Throw e, d2) ->
     Plain.deleteAsync store target criteria retrieve sendEvent d
     = mkOutcome (GetRepository "default" target :: log (retrieve d1)
                  ++ [RepoDelete (repository target) criteria])
                 d2 (Throw e)).
Proof.
  repeat apply conj.
  - intros * Hrepo Hsave. unfold Plain.createOneAsync, bind.
    rewrite (getRepositoryAsync_run store _ _ _ _ Hrepo).
    cbn [log state result].
    now rewrite (call_run _ _ _ _ _ Hsave).
  - intros * Hrepo Hsave. unfold Plain.createAsync, bind.
    rewrite (getRepositoryAsync_run store _ _ _ _ Hrepo).
    cbn [log state result].
    now rewrite (call_run _ _ _ _ _ Hsave).
  - intros * Hfirst Hrepo Hupdate. unfold Plain.updateAsync, bind.
    rewrite Hfirst. cbn [log state result].
    rewrite (getRepositoryAsync_run store _ _ _ _ Hrepo).
    cbn [log state result].
    now rewrite (call_run _ _ _ _ _ Hupdate).
  - intros * Hrepo Hfirst Hdelete. unfold Plain.deleteOneAsync, bind.
    rewrite (getRepositoryAsync_run store _ _ _ _ Hrepo).
    cbn [log state result]. rewrite Hfirst. cbn [log state result].
    now rewrite (call_run _ _ _ _ _ Hdelete).
  - intros * Hrepo Hfirst Hdelete. unfold Plain.deleteAsync, bind.
    rewrite (getRepositoryAsync_run store _ _ _ _ Hrepo).
    cbn [log state result]. rewrite Hfirst. cbn [log state result].
    now rewrite (call_run _ _ _ _ _ Hdelete).
Qed.

(** X11. [deleteEntriesBasedOnConditionPessimisticAsync] notifies before
    it deletes.  When the delete query fails, the operation throws the
    store's failure, yet every selected row has already been dispatched to
    the observer. *)
Theorem deleteEntries_notifies_before_deleting {T} target where' parameters
    (f : A -> Res T) (d d1 d2 d3 d4 : db store) rows e :
  st_getRepository store "default" target d = (Ok tt, d1) ->
  st_getMany store
    (where_ (Some where') parameters
            (createQueryBuilder (repository target))) d1 = (Ok rows, d2) ->
  st_getRepository store "default" target d2 = (Ok tt, d3) ->
  st_executeDelete store
    (delete_where (Some where') parameters
       (delete_from target
          (setLock pessimistic_write None
                   (createQueryBuilder (repository target))))) d3
    = (Throw e, d4) ->
  result (Plain.deleteEntriesBasedOnConditionPessimisticAsync
            store target where' (Some f) parameters d) = Throw e
  /\ notifications
       (log (Plain.deleteEntriesBasedOnConditionPessimisticAsync
               store target where' (Some f) parameters d))
     = map (pair Detached) rows
  /\ state (Plain.deleteEntriesBasedOnConditionPessimisticAsync
              store target where' (Some f) parameters d) = d4.
Proof.
  intros Hrepo Hselect Hrepo' Hdelete.
  unfold Plain.deleteEntriesBasedOnConditionPessimisticAsync, bind.
  rewrite (selectQueryBuilderAsync_unlocked store _ _ _ _ _ Hrepo).
  cbn [log state result].
  rewrite (call_run _ _ _ _ _ Hselect). cbn [log state result].
  rewrite forEachIfSupplied_run. cbn [log state result].
  rewrite (deleteQueryBuilderAsync_pessimistic_write store _ _ _ Hrepo').
  cbn [log state result].
  rewrite (call_run _ _ _ _ _ Hdelete). cbn [log state result].
  repeat split.
  rewrite !notifications_app.
  rewrite (notifications_notified (Some f) Detached). simpl.
  now rewrite app_nil_r.
Qed.

(** X19. [updateEntriesAsync] notifies only what it could select again.
    When the update has been executed and the select that follows fails,
    the operation throws the store's failure and no [sendEvent] has been
    dispatched, although the rows have been updated. *)
Theorem updateEntries_failed_select_sends_nothing {T} target updateValues
    where' (sendEvent : Notify A T) parameters lockMode lockVersion
    (d d1 d2 d3 d4 : db store) queryBuilder e :
  Plain.simplifiedQueryBuilderAsync (B:=A) store target lockMode
                                    lockVersion d
    = mkOutcome [GetRepository "default" target] d1 (Ok queryBuilder) ->
  st_executeUpdate store
    (mkUpdate queryBuilder target updateValues (Some where', parameters)) d1
    = (Ok tt, d2) ->
  st_getRepository store "default" target d2 = (Ok tt, d3) ->
  st_getMany store
    (where_ (Some where') None (createQueryBuilder (repository target))) d3
    = (Throw e, d4) ->
  Plain.updateEntriesAsync store target updateValues where' sendEvent
                           parameters lockMode lockVersion d
  = mkOutcome
      [GetRepository "default" target;
       ExecuteUpdate (mkUpdate queryBuilder target updateValues
                               (Some where', parameters));
       GetRepository "default" target;
       GetMany (where_ (Some where') None
                       (createQueryBuilder (repository target)))]
      d4 (Throw e).
Proof.
  intros Hbuilder Hupdate Hrepo Hselect.
  unfold Plain.updateEntriesAsync, bind.
  rewrite Hbuilder. cbn [log state result].
  rewrite (call_run _ _ _ _ _ Hupdate). cbn [log state result].
  rewrite (selectQueryBuilderAsync_unlocked store _ _ _ _ _ Hrepo).
  cbn [log state result].
  now rewrite (call_run _ _ _ _ _ Hselect).
Qed.

End MorePlainProperties.

(** * Properties of the connection-name-aware variant *)

Section MoreNamedProperties.
Context {A : Type} (store : Store A).

Lemma named_getRepositoryAsync_run {B} target connectionName
    (d d1 : db store) r :
  st_getRepository store (valueOr connectionName "default") target d
    = (r, d1) ->
  Named.getRepositoryAsync (B:=B) store target connectionName d
  = mkOutcome [GetRepository (valueOr connectionName "default") target] d1
      (match r with
       | Ok _ => Ok (repositoryOn connectionName target)
       | Throw e => Throw e
       end).
Proof.
  intros Hrepo. unfold Named.getRepositoryAsync, bind.
  rewrite (call_run _ _ _ _ _ Hrepo). simpl.
  destruct r; reflexivity.
Qed.

Lemma resolved_app {B} (l1 l2 : list (Event A B)) :
  resolved (l1 ++ l2) = resolved l1 ++ resolved l2.
Proof. apply omap_app. Qed.

Lemma resolved_dispatched {B} how (entries : list B) :
  resolved (A:=A) (map (SendEvent how) entries) = [].
Proof. induction entries as [|entry entries IH]; [reflexivity | exact IH]. Qed.

Lemma resolved_notified {B T} (sendEvent : Notify B T) how entries :
  resolved (notified (A:=A) sendEvent how entries) = [].
Proof. destruct sendEvent; [apply resolved_dispatched | reflexivity]. Qed.

(** X13. Without a connection name the connection-name-aware variant is
    the plain variant: every function of the second file, called with
    [connectionName] undefined, issues the same calls and returns the same
    result as the function of the same name in the first file. *)
Theorem named_without_connectionName_is_plain {B T} `{Nullable B} `{Clock B}
    target
    (createFromModel : A -> B) (sendEvent : Notify B T)
    (sendRow : Notify A T) :
  (forall lockMode lockVersion,
     Named.createQueryBuilderAsync (B:=B) store target lockMode lockVersion
                                   None
     = Plain.createQueryBuilderAsync store target lockMode lockVersion)
  /\ (forall where' parameters lockMode lockVersion,
        Named.selectQueryBuilderAsync (B:=B) store target where' parameters
                                      lockMode lockVersion None
        = Plain.selectQueryBuilderAsync store target where' parameters
                                        lockMode lockVersion)
  /\ (forall where' parameters,
        Named.deleteEntriesBasedOnConditionPessimisticAsync
          store target where' sendRow parameters None
        = Plain.deleteEntriesBasedOnConditionPessimisticAsync
            store target where' sendRow parameters)
  /\ (forall updateValues where' parameters lockMode lockVersion,
        Named.updateEntriesAsync store target updateValues where' sendRow
                                 parameters lockMode lockVersion None
        = Plain.updateEntriesAsync store target updateValues where' sendRow
                                   parameters lockMode lockVersion)
  /\ (forall id,
        Named.getByIdAsync store target id createFromModel None
        = Plain.getByIdAsync store target id createFromModel)
  /\ (forall condition orderByCondition,
        Named.findOneAsync store target createFromModel condition
                           orderByCondition None
        = Plain.findOneAsync store target createFromModel condition
                             orderByCondition)
  /\ (forall condition,
        Named.anyAsync (B:=B) store target condition None
        = Plain.anyAsync store target condition)
  /\ (forall findConditions orderByCondition takeAmount skipAmount,
        Named.findAsync store target createFromModel findConditions
                        orderByCondition takeAmount skipAmount None
        = Plain.findAsync store target createFromModel findConditions
                          orderByCondition takeAmount skipAmount)
  /\ (forall elementsToCreate options,
        Named.createAsync store target elementsToCreate createFromModel
                          sendEvent options None
        = Plain.createAsync store target elementsToCreate createFromModel
                            sendEvent options)
  /\ (forall elementToCreate options,
        Named.createOneAsync store target elementToCreate createFromModel
                             sendEvent options None
        = Plain.createOneAsync store target elementToCreate createFromModel
                               sendEvent options)
  /\ (forall criteria patch retrieve,
        Named.updateAsync store target criteria patch retrieve sendEvent None
        = Plain.updateAsync store target criteria patch retrieve sendEvent)
  /\ (forall id patch,
        Named.updateByIdAsync store target id patch createFromModel
                              sendEvent None
        = Plain.updateByIdAsync store target id patch createFromModel
                                sendEvent)
  /\ (forall criteria retrieve,
        Named.deleteOneAsync store target criteria retrieve sendEvent None
        = Plain.deleteOneAsync store target criteria retrieve sendEvent)
  /\ (forall criteria retrieve,
        Named.deleteAsync store target criteria retrieve sendEvent None
        = Plain.deleteAsync store target criteria retrieve sendEvent)
  /\ (forall id,
        Named.deleteByIdAsync store target id createFromModel sendEvent None
        = Plain.deleteByIdAsync store target id createFromModel sendEvent)
  /\ (forall ids optionsOrConditions,
        Named.findByIdsAsync store target createFromModel ids
                             optionsOrConditions None
        = Plain.findByIdsAsync store target createFromModel ids
                               optionsOrConditions)
  /\ (forall condition alternativeCondition orderByCondition,
        Named.findOneAlternativeConditionAsync store target createFromModel
          condition alternativeCondition orderByCondition None
        = Plain.findOneAlternativeConditionAsync store target
            createFromModel condition alternativeCondition
            orderByCondition).
Proof. repeat apply conj; intros; reflexivity. Qed.

(** X15. [deleteEntriesBasedOnConditionPessimisticAsync] of the
    connection-name-aware variant runs on the default connection whatever
    connection is named: its select goes through the unlocked branch of
    [simplifiedQueryBuilderAsync], and its delete builder is made without
    the name. *)
Theorem named_deleteEntries_ignores_connectionName {T} target where'
    (sendEvent : Notify A T) parameters connectionName :
  Named.deleteEntriesBasedOnConditionPessimisticAsync
    store target where' sendEvent parameters connectionName
  = Plain.deleteEntriesBasedOnConditionPessimisticAsync
      store target where' sendEvent parameters.
Proof. reflexivity. Qed.

(** X14. The reads and creates of the connection-name-aware variant go to
    the named connection.  In every run, failing or not, [findOneAsync],
    [anyAsync], [findAsync], [findByIdsAsync], [createAsync] and
    [createOneAsync] resolve exactly one repository, on the connection
    named, or on the default connection when none is named. *)
Theorem named_reads_and_creates_use_connectionName {B T} `{Nullable B}
    `{Clock B} target
    (createFromModel : A -> B) (sendEvent : Notify B T) connectionName
    (d : db store) :
  (forall condition orderByCondition,
     resolved (log (Named.findOneAsync store target createFromModel
                      condition orderByCondition connectionName d))
     = [valueOr connectionName "default"])
  /\ (forall condition,
        resolved (log (Named.anyAsync (B:=B) store target condition
                         connectionName d))
        = [valueOr connectionName "default"])
  /\ (forall findConditions orderByCondition takeAmount skipAmount,
        resolved (log (Named.findAsync store target createFromModel
                         findConditions orderByCondition takeAmount
                         skipAmount connectionName d))
        = [valueOr connectionName "default"])
  /\ (forall ids optionsOrConditions,
        resolved (log (Named.findByIdsAsync store target createFromModel ids
                         optionsOrConditions connectionName d))
        = [valueOr connectionName "default"])
  /\ (forall elementsToCreate options,
        resolved (log (Named.createAsync store target elementsToCreate
                         createFromModel sendEvent options connectionName d))
        = [valueOr connectionName "default"])
  /\ (forall elementToCreate options,
        resolved (log (Named.createOneAsync store target elementToCreate
                         createFromModel sendEvent options connectionName d))
        = [valueOr connectionName "default"]).
Proof.
  destruct (st_getRepository store (valueOr connectionName "default")
                             target d) as [r d1] eqn:Hrepo.
  pose proof (fun B => named_getRepositoryAsync_run (B:=B) _ _ _ _ _ Hrepo)
    as Hrun.
  repeat apply conj; intros.
  - unfold Named.findOneAsync, Named.createQueryBuilderAsync, bind.
    destruct (Plain.scalarCondition condition); rewrite Hrun;
      cbn [log state result ret throw]; destruct r as [[]|e]; cbn [log state result ret throw];
      try reflexivity; unfold call; cbv zeta.
    + match goal with
      | |- context [st_findOne ?s ?r ?i ?x] =>
          destruct (st_findOne s r i x) as [[]]
      end; reflexivity.
    + match goal with
      | |- context [st_getOne ?s ?q ?x] => destruct (st_getOne s q x) as [[]]
      end; reflexivity.
  - unfold Named.anyAsync, Named.createQueryBuilderAsync, bind.
    rewrite Hrun. cbn [log state result ret throw].
    destruct r as [[]|e]; cbn [log state result ret throw]; try reflexivity.
    unfold call; cbv zeta.
    match goal with
    | |- context [st_getCount ?s ?q ?x] => destruct (st_getCount s q x) as [[]]
    end; reflexivity.
  - unfold Named.findAsync, Named.createQueryBuilderAsync, bind.
    rewrite Hrun. cbn [log state result ret throw].
    destruct r as [[]|e]; cbn [log state result ret throw]; try reflexivity.
    unfold call; cbv zeta.
    match goal with
    | |- context [st_getMany ?s ?q ?x] => destruct (st_getMany s q x) as [[]]
    end; reflexivity.
  - unfold Named.findByIdsAsync, bind.
    rewrite Hrun. cbn [log state result ret throw].
    destruct r as [[]|e]; cbn [log state result ret throw]; try reflexivity.
    unfold call; cbv zeta.
    match goal with
    | |- context [st_findByIds ?s ?r ?i ?o ?x] =>
        destruct (st_findByIds s r i o x) as [[]]
    end; reflexivity.
  - unfold Named.createAsync, bind.
    rewrite Hrun. cbn [log state result ret throw].
    destruct r as [[]|e]; cbn [log state result ret throw]; try reflexivity.
    unfold call; cbv zeta.
    match goal with
    | |- context [st_save ?s ?r ?i ?o ?x] =>
        destruct (st_save s r i o x) as [[saved|]]
    end; cbn [log state result ret throw]; try reflexivity.
    destruct sendEvent; cbn [log state result ret throw]; try reflexivity.
    rewrite !resolved_app, resolved_dispatched. reflexivity.
  - unfold Named.createOneAsync, bind.
    rewrite Hrun. cbn [log state result ret throw].
    destruct r as [[]|e]; cbn [log state result ret throw]; try reflexivity.
    unfold call; cbv zeta.
    match goal with
    | |- context [st_saveOne ?s ?r ?i ?o ?x] =>
        destruct (st_saveOne s r i o x) as [[saved|]]
    end; cbn [log state result ret throw]; try reflexivity.
    rewrite awaitIfSupplied_run. cbn [log state result ret throw].
    destruct (rejection sendEvent (createFromModel saved));
      cbn [log state result ret throw];
      rewrite !resolved_app, ?resolved_app, resolved_notified; reflexivity.
Qed.

Lemma named_findOneAsync_scalar {B} `{Nullable B} target
    (createFromModel : A -> B)
    condition orderByCondition connectionName id (d d1 d2 : db store) found :
  Plain.scalarCondition condition = Some id ->
  st_getRepository store (valueOr connectionName "default") target d
    = (Ok tt, d1) ->
  st_findOne store (repositoryOn connectionName target) id d1
    = (Ok found, d2) ->
  Named.findOneAsync store target createFromModel condition orderByCondition
                     connectionName d
  = mkOutcome [GetRepository (valueOr connectionName "default") target;
               RepoFindOne (repositoryOn connectionName target) id]
              d2 (Ok (mapOptional createFromModel found)).
Proof.
  intros Hscalar Hrepo Hfind. unfold Named.findOneAsync, bind.
  rewrite Hscalar.
  rewrite (named_getRepositoryAsync_run _ _ _ _ _ Hrepo).
  cbn [log state result].
  now rewrite (call_run _ _ _ _ _ Hfind).
Qed.

Lemma named_getByIdAsync_run {B} `{Nullable B} target id
    (createFromModel : A -> B) connectionName (d d1 d2 : db store) found :
  st_getRepository store (valueOr connectionName "default") target d
    = (Ok tt, d1) ->
  st_findOne store (repositoryOn connectionName target) (VString id) d1
    = (Ok found, d2) ->
  Named.getByIdAsync store target id createFromModel connectionName d
  = mkOutcome [GetRepository (valueOr connectionName "default") target;
               RepoFindOne (repositoryOn connectionName target) (VString id)]
              d2 (Ok (match found with
                      | Some record =>
                          if nullish (createFromModel record) then None
                          else Some (createFromModel record)
                      | None => None
                      end)).
Proof.
  intros Hrepo Hfind. unfold Named.getByIdAsync.
  rewrite (named_findOneAsync_scalar _ _ (Some (CondString id)) _ _ _ _ _ _
             _ eq_refl Hrepo Hfind).
  now destruct found.
Qed.

Lemma named_simplifiedQueryBuilderAsync_optimistic {B} target lockVersion
    connectionName (d d1 : db store) :
  truthyVersion lockVersion = true ->
  st_getRepository store (valueOr connectionName "default") target d
    = (Ok tt, d1) ->
  Named.simplifiedQueryBuilderAsync (B:=B) store target (Some optimistic)
                                    lockVersion connectionName d
  = mkOutcome [GetRepository (valueOr connectionName "default") target] d1
      (Ok (setLock optimistic lockVersion
                   (createQueryBuilder (repositoryOn connectionName target)))).
Proof.
  intros Hversion Hrepo.
  unfold Named.simplifiedQueryBuilderAsync. rewrite Hversion.
  unfold Named.createQueryBuilderAsync, bind.
  rewrite (named_getRepositoryAsync_run _ _ _ _ _ Hrepo).
  cbn [log state result]. now rewrite Hversion.
Qed.

(** X16. [updateEntriesAsync] of the connection-name-aware variant and the
    connection it is given.  Unless the lock request is optimistic with a
    usable version, the name is ignored and the whole operation runs as in
    the plain variant, on the default connection.  With optimistic and a
    version, the update is executed on the named connection, and the select
    that follows, whose rows are notified and returned, on the default
    connection. *)
Theorem named_updateEntries_connections {T} target updateValues where'
    (sendEvent : Notify A T) parameters lockMode lockVersion connectionName
    (d : db store) :
  (bool_decide (lockMode = Some optimistic) && truthyVersion lockVersion
     = false ->
   Named.updateEntriesAsync store target updateValues where' sendEvent
                            parameters lockMode lockVersion connectionName d
   = Plain.updateEntriesAsync store target updateValues where' sendEvent
                              parameters lockMode lockVersion d)
  /\
  (forall (d1 d2 d3 d4 : db store) rows,
     lockMode = Some optimistic ->
     truthyVersion lockVersion = true ->
     st_getRepository store (valueOr connectionName "default") target d
       = (Ok tt, d1) ->
     st_executeUpdate store
       (mkUpdate
          (setLock optimistic lockVersion
                   (createQueryBuilder (repositoryOn connectionName target)))
          target updateValues (Some where', parameters)) d1 = (Ok tt, d2) ->
     st_getRepository store "default" target d2 = (Ok tt, d3) ->
     st_getMany store
       (where_ (Some where') None (createQueryBuilder (repository target)))
       d3 = (Ok rows, d4) ->
     Named.updateEntriesAsync store target updateValues where' sendEvent
                              parameters lockMode lockVersion connectionName d
     = mkOutcome
         ([GetRepository (valueOr connectionName "default") target;
           ExecuteUpdate
             (mkUpdate
                (setLock optimistic lockVersion
                   (createQueryBuilder (repositoryOn connectionName target)))
                target updateValues (Some where', parameters));
           GetRepository "default" target;
           GetMany (where_ (Some where') None
                           (createQueryBuilder (repository target)))]
          ++ notified sendEvent Detached rows)
         d4 (Ok rows)).
Proof.
  split.
  - intros Hlock.
    destruct lockMode as [[]|]; try reflexivity.
    simpl in Hlock.
    unfold Named.updateEntriesAsync, Plain.updateEntriesAsync,
      Named.simplifiedQueryBuilderAsync, Plain.simplifiedQueryBuilderAsync.
    now rewrite Hlock.
  - intros d1 d2 d3 d4 rows -> Hversion Hrepo Hupdate Hrepo' Hselect.
    unfold Named.updateEntriesAsync, bind.
    rewrite (named_simplifiedQueryBuilderAsync_optimistic _ _ _ _ _
               Hversion Hrepo).
    cbn [log state result].
    rewrite (call_run _ _ _ _ _ Hupdate).
    cbn [log state result].
    change (Named.selectQueryBuilderAsync store target where' None None None
                                          connectionName)
      with (Plain.selectQueryBuilderAsync (B:=A) store target where' None
                                          None None).
    rewrite (selectQueryBuilderAsync_unlocked store _ _ _ _ _ Hrepo').
    cbn [log state result].
    rewrite (call_run _ _ _ _ _ Hselect).
    cbn [log state result].
    rewrite forEachIfSupplied_run. simpl. now rewrite app_nil_r.
Qed.

(** X17. [deleteByIdAsync] of the connection-name-aware variant looks the
    record up on the default connection and deletes on the named one: its
    retrieval is made without the connection name.  An id the default
    connection does not have, or has with a projection that is [undefined]
    or [null], gives the empty Optional and no delete on the named
    connection.  Otherwise the delete is issued, by the criteria [{ id }],
    on the named connection, and the observer, when supplied, is called
    with the projection of the default connection's record and waited for:
    the operation fails with the observer's failure, or returns that
    projection. *)
Theorem named_deleteByIdAsync_connections {B T} `{Nullable B} target id
    (createFromModel : A -> B) (sendEvent : Notify B T) connectionName
    (d d1 d2 d3 : db store) :
  st_getRepository store (valueOr connectionName "default") target d
    = (Ok tt, d1) ->
  st_getRepository store "default" target d1 = (Ok tt, d2) ->
  (st_findOne store (repository target) (VString id) d2 = (Ok None, d3) ->
   Named.deleteByIdAsync store target id createFromModel sendEvent
                         connectionName d
   = mkOutcome [GetRepository (valueOr connectionName "default") target;
                GetRepository "default" target;
                RepoFindOne (repository target) (VString id)]
               d3 (Ok None))
  /\
  (forall found,
     st_findOne store (repository target) (VString id) d2
       = (Ok (Some found), d3) ->
     nullish (createFromModel found) = true ->
     Named.deleteByIdAsync store target id createFromModel sendEvent
                           connectionName d
     = mkOutcome [GetRepository (valueOr connectionName "default") target;
                  GetRepository "default" target;
                  RepoFindOne (repository target) (VString id)]
                 d3 (Ok None))
  /\
  (forall found (d4 : db store),
     st_findOne store (repository target) (VString id) d2
       = (Ok (Some found), d3) ->
     nullish (createFromModel found) = false ->
     st_delete store (repositoryOn connectionName target)
               (CriteriaFind {[ "id" := VString id ]}) d3 = (Ok tt, d4) ->
     Named.deleteByIdAsync store target id createFromModel sendEvent
                           connectionName d
     = mkOutcome
         ([GetRepository (valueOr connectionName "default") target;
           GetRepository "default" target;
           RepoFindOne (repository target) (VString id);
           RepoDelete (repositoryOn connectionName target)
                      (CriteriaFind {[ "id" := VString id ]})]
          ++ notified sendEvent Awaited [createFromModel found])
         d4 (match rejection sendEvent (createFromModel found) with
             | None => Ok (Some (createFromModel found))
             | Some e => Throw e
             end)).
Proof.
  intros Hrepo Hrepo'; repeat apply conj.
  - intros Hfind.
    pose proof (named_getByIdAsync_run target id createFromModel None
                  _ _ _ _ Hrepo' Hfind) as Hfirst.
    unfold Named.deleteByIdAsync, Named.deleteOneAsync, bind.
    rewrite (named_getRepositoryAsync_run _ _ _ _ _ Hrepo).
    cbn [log state result ret throw].
    rewrite Hfirst. reflexivity.
  - intros found Hfind Hnullish.
    pose proof (named_getByIdAsync_run target id createFromModel None
                  _ _ _ _ Hrepo' Hfind) as Hfirst.
    cbv beta iota in Hfirst. rewrite Hnullish in Hfirst.
    unfold Named.deleteByIdAsync, Named.deleteOneAsync, bind.
    rewrite (named_getRepositoryAsync_run _ _ _ _ _ Hrepo).
    cbn [log state result ret throw].
    rewrite Hfirst. reflexivity.
  - intros found d4 Hfind Hdefined Hdelete.
    pose proof (named_getByIdAsync_run target id createFromModel None
                  _ _ _ _ Hrepo' Hfind) as Hfirst.
    cbv beta iota in Hfirst. rewrite Hdefined in Hfirst.
    unfold Named.deleteByIdAsync, Named.deleteOneAsync, bind.
    rewrite (named_getRepositoryAsync_run _ _ _ _ _ Hrepo).
    cbn [log state result ret throw].
    rewrite Hfirst. cbn [log state result ret throw].
    rewrite (call_run _ _ _ _ _ Hdelete).
    cbn [log state result ret throw].
    rewrite awaitIfSupplied_run.
    destruct (rejection sendEvent (createFromModel found));
      simpl; now rewrite ?app_nil_r.
Qed.

(** X18. [updateByIdAsync] of the connection-name-aware variant stays on
    the named connection: the lookup before the update, the update by the
    criteria [{ id }] and the lookup after it all go to the connection
    named.  An id that connection does not have, or has with a projection
    that is [undefined] or [null], gives the "not possible to update"
    error and no update.  Otherwise the observer, when supplied, is called
    with the projection of the record as it was before the update, and
    waited for: if it fails the operation ends there with its failure, if
    not the caller gets the projection of what the second lookup finds. *)
Theorem named_updateByIdAsync_connection {B T} `{Nullable B} target id patch
    (createFromModel : A -> B) (sendEvent : Notify B T) connectionName
    (d d1 d2 : db store) :
  st_getRepository store (valueOr connectionName "default") target d
    = (Ok tt, d1) ->
  (st_findOne store (repositoryOn connectionName target) (VString id) d1
     = (Ok None, d2) ->
   Named.updateByIdAsync store target id patch createFromModel sendEvent
                         connectionName d
   = mkOutcome [GetRepository (valueOr connectionName "default") target;
                RepoFindOne (repositoryOn connectionName target)
                            (VString id)]
               d2 (Throw (Error "Not possible to update the given entity")))
  /\
  (forall before,
     st_findOne store (repositoryOn connectionName target) (VString id) d1
       = (Ok (Some before), d2) ->
     nullish (createFromModel before) = true ->
     Named.updateByIdAsync store target id patch createFromModel sendEvent
                           connectionName d
     = mkOutcome [GetRepository (valueOr connectionName "default") target;
                  RepoFindOne (repositoryOn connectionName target)
                              (VString id)]
                 d2 (Throw (Error "Not possible to update the given entity")))
  /\
  (forall before (d3 d4 : db store),
     st_findOne store (repositoryOn connectionName target) (VString id) d1
       = (Ok (Some before), d2) ->
     nullish (createFromModel before) = false ->
     st_getRepository store (valueOr connectionName "default") target d2
       = (Ok tt, d3) ->
     st_update store (repositoryOn connectionName target)
               (CriteriaFind {[ "id" := VString id ]}) patch d3
       = (Ok tt, d4) ->
     (forall e,
        rejection sendEvent (createFromModel before) = Some e ->
        Named.updateByIdAsync store target id patch createFromModel
                              sendEvent connectionName d
        = mkOutcome
            ([GetRepository (valueOr connectionName "default") target;
              RepoFindOne (repositoryOn connectionName target) (VString id);
              GetRepository (valueOr connectionName "default") target;
              RepoUpdate (repositoryOn connectionName target)
                         (CriteriaFind {[ "id" := VString id ]}) patch]
             ++ notified sendEvent Awaited [createFromModel before])
            d4 (Throw e))
     /\
     (forall after (d5 d6 : db store),
        rejection sendEvent (createFromModel before) = None ->
        st_getRepository store (valueOr connectionName "default") target d4
          = (Ok tt, d5) ->
        st_findOne store (repositoryOn connectionName target) (VString id)
                   d5
          = (Ok after, d6) ->
        Named.updateByIdAsync store target id patch createFromModel
                              sendEvent connectionName d
        = mkOutcome
            ([GetRepository (valueOr connectionName "default") target;
              RepoFindOne (repositoryOn connectionName target) (VString id);
              GetRepository (valueOr connectionName "default") target;
              RepoUpdate (repositoryOn connectionName target)
                         (CriteriaFind {[ "id" := VString id ]}) patch]
             ++ notified sendEvent Awaited [createFromModel before]
             ++ [GetRepository (valueOr connectionName "default") target;
                 RepoFindOne (repositoryOn connectionName target)
                             (VString id)])
            d6 (Ok (match after with
                    | Some record =>
                        if nullish (createFromModel record) then None
                        else Some (createFromModel record)
                    | None => None
                    end)))).
Proof.
  intros Hrepo; repeat apply conj.
  - intros Hfind.
    pose proof (named_getByIdAsync_run target id createFromModel
                  connectionName _ _ _ _ Hrepo Hfind) as Hfirst.
    unfold Named.updateByIdAsync, Named.updateAsync, bind.
    rewrite Hfirst. reflexivity.
  - intros before Hfind Hnullish.
    pose proof (named_getByIdAsync_run target id createFromModel
                  connectionName _ _ _ _ Hrepo Hfind) as Hfirst.
    cbv beta iota in Hfirst. rewrite Hnullish in Hfirst.
    unfold Named.updateByIdAsync, Named.updateAsync, bind.
    rewrite Hfirst. reflexivity.
  - intros before d3 d4 Hfind Hdefined Hrepo' Hupdate.
    pose proof (named_getByIdAsync_run target id createFromModel
                  connectionName _ _ _ _ Hrepo Hfind) as Hfirst.
    cbv beta iota in Hfirst. rewrite Hdefined in Hfirst.
    split.
    + intros e Hrejected.
    unfold Named.updateByIdAsync, Named.updateAsync, bind.
    rewrite Hfirst. cbn [log state result ret throw].
    rewrite (named_getRepositoryAsync_run _ _ _ _ _ Hrepo').
    cbn [log state result ret throw].
    rewrite (call_run _ _ _ _ _ Hupdate).
    cbn [log state result ret throw].
    rewrite awaitIfSupplied_run, Hrejected.
    simpl. reflexivity.
    + intros after d5 d6 Hfulfilled Hrepo'' Hfind'.
    pose proof (named_getByIdAsync_run target id createFromModel
                  connectionName _ _ _ _ Hrepo'' Hfind') as Hsecond.
    unfold Named.updateByIdAsync, Named.updateAsync, bind.
    rewrite Hfirst. cbn [log state result ret throw].
    rewrite (named_getRepositoryAsync_run _ _ _ _ _ Hrepo').
    cbn [log state result ret throw].
    rewrite (call_run _ _ _ _ _ Hupdate).
    cbn [log state result ret throw].
    rewrite awaitIfSupplied_run, Hfulfilled.
    cbn [log state result ret throw].
    rewrite Hsecond. simpl. reflexivity.
Qed.

End MoreNamedProperties.

(** ** The further properties at work on the in-memory store *)

Section MoreOnTheMemoryStore.
Import Mem.
#[local] Existing Instance Mem.immediate.

(** Nothing has id "9"; the alternative id "2" is bob's. *)
Lemma findOneAlternative_falls_back_witness :
  result (Plain.findOneAlternativeConditionAsync Mem.store users id
            (Some (CondString "9")) (Some (CondString "2")) None db0)
  = Ok (Some bob).
Proof.
  rewrite (proj2 (proj2 (findOneAlternative_falls_back Mem.store users id
                           (Some (CondString "9")) (Some (CondString "2"))
                           None db0)) eq_refl).
  reflexivity.
Defined.

(** A stored id, on the direct route and through a structured condition;
    and a stored id whose projection is [undefined]. *)
Lemma findOneAsync_present_witness :
  result (Plain.findOneAsync Mem.store users id (Some (CondString "2"))
                             None db0) = Ok (Some bob)
  /\ result (Plain.findOneAsync Mem.store users id (Some (CondFind named_a))
                                None db0) = Ok (Some alice)
  /\ result (Plain.findOneAsync Mem.store users nickname
                                (Some (CondString "2")) None db0) = Ok None.
Proof.
  split; [|split].
  - pose proof (proj1 (findOneAsync_present Mem.store users id None
                         db0 db0 db0 bob eq_refl)) as H.
    rewrite (H "2" eq_refl). reflexivity.
  - pose proof (proj1 (proj2 (proj2 (proj2
                  (findOneAsync_present Mem.store users id None
                     db0 db0 db0 alice eq_refl))))) as H.
    rewrite (H named_a eq_refl). reflexivity.
  - pose proof (proj1 (findOneAsync_present Mem.store users nickname None
                         db0 db0 db0 bob eq_refl)) as H.
    rewrite (H "2" eq_refl). reflexivity.
Defined.

(** A zero [takeAmount] does not give an empty page. *)
Lemma findAsync_query_witness :
  result (Plain.findAsync Mem.store users id (Some named_a) None
                          (Some 0) None db0)
  = Ok [alice; bob].
Proof.
  rewrite (findAsync_query Mem.store users id (Some named_a) None (Some 0)
             None db0 db0 db0 [alice; bob] eq_refl eq_refl).
  reflexivity.
Defined.

(** An id nobody has; bob renamed under a fulfilling observer; bob
    renamed under a rejecting one: the update has been made and the
    caller gets the observer's failure; and a projection that is
    [undefined]: no update. *)
Lemma updateByIdAsync_by_id_witness :
  result (Plain.updateByIdAsync Mem.store users "9" rename_b id
                                (Some fulfilled) db0)
  = Throw (Error "Not possible to update the given entity")
  /\ result (Plain.updateByIdAsync Mem.store users "2" rename_b id
                                   (Some fulfilled) db0)
     = Ok (Some (rename_b ∪ bob))
  /\ result (Plain.updateByIdAsync Mem.store users "2" rename_b id
                                   (Some rejected) db0)
     = Throw (EventError "observer down")
  /\ Plain.updateByIdAsync (T:=unit) Mem.store users "2" rename_b nickname
                           None db0
     = mkOutcome [GetRepository "default" users;
                  RepoFindOne (repository users) (VString "2")]
                 db0 (Throw (Error "Not possible to update the given entity")).
Proof.
  split; [|split; [|split]].
  - pose proof (proj1 (updateByIdAsync_by_id Mem.store users "9" rename_b id
                         (Some fulfilled) db0 db0 db0 eq_refl)) as H.
    rewrite (H eq_refl). reflexivity.
  - pose proof (proj2 (proj2 (updateByIdAsync_by_id Mem.store users "2"
                         rename_b id (Some fulfilled) db0 db0 db0 eq_refl)))
      as H.
    pose proof (proj2 (H bob db0 _ eq_refl eq_refl eq_refl eq_refl)) as H'.
    rewrite (H' (Some (rename_b ∪ bob)) _ _ eq_refl eq_refl eq_refl).
    reflexivity.
  - pose proof (proj2 (proj2 (updateByIdAsync_by_id Mem.store users "2"
                         rename_b id (Some rejected) db0 db0 db0 eq_refl)))
      as H.
    pose proof (proj1 (H bob db0 _ eq_refl eq_refl eq_refl eq_refl)) as H'.
    rewrite (H' _ eq_refl). reflexivity.
  - pose proof (proj1 (proj2 (updateByIdAsync_by_id (T:=unit) Mem.store users
                         "2" rename_b nickname None db0 db0 db0 eq_refl)))
      as H.
    exact (H bob eq_refl eq_refl).
Defined.

(** An id nobody has; bob deleted under a fulfilling observer; bob
    deleted under a rejecting one: the row is gone and the caller gets the
    observer's failure; and a projection that is [undefined]: no delete. *)
Lemma deleteByIdAsync_by_id_witness :
  result (Plain.deleteByIdAsync Mem.store users "9" id (Some fulfilled) db0)
  = Ok None
  /\ result (Plain.deleteByIdAsync Mem.store users "2" id (Some fulfilled)
                                   db0)
     = Ok (Some bob)
  /\ (result (Plain.deleteByIdAsync Mem.store users "2" id (Some rejected)
                                    db0)
      = Throw (EventError "observer down")
      /\ Mem.rowsOf "default" users
           (state (Plain.deleteByIdAsync Mem.store users "2" id
                     (Some rejected) db0))
         = Ok [alice])
  /\ Plain.deleteByIdAsync (T:=unit) Mem.store users "2" nickname None db0
     = mkOutcome [GetRepository "default" users;
                  GetRepository "default" users;
                  RepoFindOne (repository users) (VString "2")]
                 db0 (Ok None).
Proof.
  split; [|split; [|split]].
  - pose proof (proj1 (deleteByIdAsync_by_id Mem.store users "9" id
                         (Some fulfilled) db0 db0 db0 db0 eq_refl eq_refl))
      as H.
    rewrite (H eq_refl). reflexivity.
  - pose proof (proj2 (proj2 (deleteByIdAsync_by_id Mem.store users "2" id
                         (Some fulfilled) db0 db0 db0 db0 eq_refl eq_refl)))
      as H.
    rewrite (H bob _ eq_refl eq_refl eq_refl). reflexivity.
  - pose proof (proj2 (proj2 (deleteByIdAsync_by_id Mem.store users "2" id
                         (Some rejected) db0 db0 db0 db0 eq_refl eq_refl)))
      as H.
    rewrite (H bob _ eq_refl eq_refl eq_refl). split; reflexivity.
  - pose proof (proj1 (proj2 (deleteByIdAsync_by_id (T:=unit) Mem.store users
                         "2" nickname None db0 db0 db0 db0 eq_refl eq_refl)))
      as H.
    exact (H bob eq_refl eq_refl).
Defined.

(** Deleting by name "a" what a retrieval found, and deleting by name "a"
    after a retrieval that found nothing: the delete is issued all the
    same. *)
Lemma deleteAsync_delete_if_present_witness :
  result (Plain.deleteAsync Mem.store users (CriteriaFind named_a)
                            (matchingRows named_a) (Some fulfilled) db0)
  = Ok [alice; bob]
  /\ Mem.rowsOf "default" users
       (state (Plain.deleteAsync Mem.store users (CriteriaFind named_a)
                 (matchingRows rename_b) (Some fulfilled) db0))
     = Ok [].
Proof.
  split.
  - rewrite (proj2 (deleteAsync_delete_if_present Mem.store users
                      (CriteriaFind named_a) (matchingRows named_a)
                      (Some fulfilled) db0 db0 eq_refl)
                   [alice; bob] _ eq_refl eq_refl).
    reflexivity.
  - rewrite (proj2 (deleteAsync_delete_if_present Mem.store users
                      (CriteriaFind named_a) (matchingRows rename_b)
                      (Some fulfilled) db0 db0 eq_refl)
                   [] _ eq_refl eq_refl).
    reflexivity.
Defined.

(** A version passed with a pessimistic mode is dropped. *)
Lemma createQueryBuilderAsync_lock_request_witness :
  result (Plain.createQueryBuilderAsync (B:=Row) Mem.store users
            (Some pessimistic_read) (Some (VersionNumber 3)) db0)
  = Ok (mkSelect "default" users (Some (pessimistic_read, None))
                 None None None None).
Proof.
  rewrite (createQueryBuilderAsync_lock_request Mem.store users
             (Some pessimistic_read) (Some (VersionNumber 3)) db0 db0
             eq_refl).
  reflexivity.
Defined.

Lemma simplifiedQueryBuilderAsync_always_builds_witness :
  result (Plain.simplifiedQueryBuilderAsync (B:=Row) Mem.store users
            (Some optimistic) None db0)
  = Ok (mkSelect "default" users None None None None None).
Proof.
  rewrite (simplifiedQueryBuilderAsync_always_builds Mem.store users
             (Some optimistic) None db0 db0 eq_refl).
  reflexivity.
Defined.

Lemma updateAsync_returns_fresh_retrieval_witness :
  result (Plain.getByIdAsync Mem.store users "1" id
            (state (Plain.updateByIdAsync Mem.store users "1" rename_b id
                      (Some fulfilled) db0)))
  = result (Plain.updateByIdAsync Mem.store users "1" rename_b id
                                  (Some fulfilled) db0).
Proof.
  exact (updateAsync_returns_fresh_retrieval Mem.store users
           (CriteriaFind {[ "id" := VString "1" ]}) rename_b
           (Plain.getByIdAsync Mem.store users "1" id) (Some fulfilled)
           db0 db0 _ alice eq_refl eq_refl eq_refl eq_refl eq_refl).
Defined.

(** On the store that refuses mutations, a create reaches no observer,
    not even one that would fail. *)
Lemma failed_mutation_sends_nothing_witness :
  Plain.createOneAsync Mem.readOnly users carol id (Some rejected) None db0
  = mkOutcome [GetRepository "default" users;
               RepoSaveOne (repository users) carol None]
              db0 (Throw (StoreError "read-only")).
Proof.
  exact (proj1 (failed_mutation_sends_nothing Mem.readOnly users
                  (Some rejected) (StoreError "read-only"))
               carol id None db0 db0 db0 eq_refl eq_refl).
Defined.

(** On the store that refuses mutations, the rows named "a" are notified
    as deleted and stay where they were. *)
Lemma deleteEntries_notifies_before_deleting_witness :
  result (Plain.deleteEntriesBasedOnConditionPessimisticAsync
            Mem.readOnly users (WhereObject named_a) (Some fulfilled) None
            db0)
  = Throw (StoreError "read-only")
  /\ notifications
       (log (Plain.deleteEntriesBasedOnConditionPessimisticAsync
               Mem.readOnly users (WhereObject named_a) (Some fulfilled)
               None db0))
     = [(Detached, alice); (Detached, bob)]
  /\ state (Plain.deleteEntriesBasedOnConditionPessimisticAsync
              Mem.readOnly users (WhereObject named_a) (Some fulfilled)
              None db0)
     = db0.
Proof.
  exact (deleteEntries_notifies_before_deleting Mem.readOnly users
           (WhereObject named_a) None fulfilled db0 db0 db0 db0 db0
           [alice; bob] (StoreError "read-only")
           eq_refl eq_refl eq_refl eq_refl).
Defined.

(** On the store whose [getMany] fails, the rename is applied and the
    operation throws. *)
Lemma updateEntries_failed_select_sends_nothing_witness :
  result (Plain.updateEntriesAsync Mem.blind users rename_b
            (WhereObject named_a) (Some fulfilled) None None None db0)
  = Throw (StoreError "QueryFailedError")
  /\ Mem.rowsOf "default" users
       (state (Plain.updateEntriesAsync Mem.blind users rename_b
                 (WhereObject named_a) (Some fulfilled) None None None db0))
     = Ok [rename_b ∪ alice; rename_b ∪ bob].
Proof.
  rewrite (updateEntries_failed_select_sends_nothing Mem.blind users
             rename_b (WhereObject named_a) (Some fulfilled) None None None
             db0 db0 _ _ _ (createQueryBuilder (repository users))
             (StoreError "QueryFailedError")
             eq_refl eq_refl eq_refl eq_refl).
  split; reflexivity.
Defined.

(** Renaming on the "reporting" connection under an optimistic lock: dave
    is renamed there, and the rows notified and returned are the default
    connection's. *)
Lemma named_updateEntries_connections_witness :
  Named.updateEntriesAsync Mem.store users rename_b
    (WhereObject (∅ : ObjectLiteral)) (Some fulfilled) None
    (Some optimistic) (Some (VersionNumber 1)) (Some "reporting") db1
  = mkOutcome
      ([GetRepository "reporting" users;
        ExecuteUpdate
          (mkUpdate
             (setLock optimistic (Some (VersionNumber 1))
                (createQueryBuilder (repositoryOn (Some "reporting") users)))
             users rename_b (Some (WhereObject (∅ : ObjectLiteral)), None));
        GetRepository "default" users;
        GetMany (where_ (Some (WhereObject (∅ : ObjectLiteral))) None
                        (createQueryBuilder (repository users)))]
       ++ notified (Some fulfilled) Detached [alice; bob])
      db1_renamed (Ok [alice; bob]).
Proof.
  refine (proj2 (named_updateEntries_connections Mem.store users rename_b
                   (WhereObject (∅ : ObjectLiteral)) (Some fulfilled) None
                   (Some optimistic) (Some (VersionNumber 1))
                   (Some "reporting") db1)
                db1 db1_renamed db1_renamed db1_renamed [alice; bob]
                eq_refl eq_refl _ _ _ _);
    reflexivity.
Defined.

(** On "reporting", id "4" is dave's and id "1" nobody's; on the default
    connection id "1" is alice's.  Deleting id "4" there finds nothing;
    deleting id "1" there returns alice, or the failure of a rejecting
    observer. *)
Lemma named_deleteByIdAsync_connections_witness :
  result (Named.deleteByIdAsync Mem.store users "4" id (Some fulfilled)
                                (Some "reporting") db1)
  = Ok None
  /\ result (Named.deleteByIdAsync Mem.store users "1" id (Some fulfilled)
                                   (Some "reporting") db1)
     = Ok (Some alice)
  /\ result (Named.deleteByIdAsync Mem.store users "1" id (Some rejected)
                                   (Some "reporting") db1)
     = Throw (EventError "observer down")
  /\ result (Named.deleteByIdAsync (T:=unit) Mem.store users "1" nickname
                                   None (Some "reporting") db1)
     = Ok None.
Proof.
  split; [|split; [|split]].
  - pose proof (proj1 (named_deleteByIdAsync_connections Mem.store users "4"
                         id (Some fulfilled) (Some "reporting")
                         db1 db1 db1 db1 eq_refl eq_refl)) as H.
    rewrite (H eq_refl). reflexivity.
  - pose proof (proj2 (proj2 (named_deleteByIdAsync_connections Mem.store
                         users "1" id (Some fulfilled) (Some "reporting")
                         db1 db1 db1 db1 eq_refl eq_refl))) as H.
    rewrite (H alice _ eq_refl eq_refl eq_refl). reflexivity.
  - pose proof (proj2 (proj2 (named_deleteByIdAsync_connections Mem.store
                         users "1" id (Some rejected) (Some "reporting")
                         db1 db1 db1 db1 eq_refl eq_refl))) as H.
    rewrite (H alice _ eq_refl eq_refl eq_refl). reflexivity.
  - pose proof (proj1 (proj2 (named_deleteByIdAsync_connections (T:=unit)
                         Mem.store users "1" nickname None
                         (Some "reporting") db1 db1 db1 db1
                         eq_refl eq_refl))) as H.
    rewrite (H alice eq_refl eq_refl). reflexivity.
Defined.

(** Dave, on "reporting", renamed under a fulfilling observer and under a
    rejecting one; id "1", which only the default connection has; and a
    projection that is [undefined]. *)
Lemma named_updateByIdAsync_connection_witness :
  result (Named.updateByIdAsync Mem.store users "4" rename_b id
                                (Some fulfilled) (Some "reporting") db1)
  = Ok (Some (rename_b ∪ dave))
  /\ result (Named.updateByIdAsync Mem.store users "4" rename_b id
                                   (Some rejected) (Some "reporting") db1)
     = Throw (EventError "observer down")
  /\ result (Named.updateByIdAsync Mem.store users "1" rename_b id
                                   (Some fulfilled) (Some "reporting") db1)
     = Throw (Error "Not possible to update the given entity")
  /\ result (Named.updateByIdAsync (T:=unit) Mem.store users "4" rename_b
                                   nickname None (Some "reporting") db1)
     = Throw (Error "Not possible to update the given entity").
Proof.
  split; [|split; [|split]].
  - pose proof (proj2 (proj2 (named_updateByIdAsync_connection Mem.store
                         users "4" rename_b id (Some fulfilled)
                         (Some "reporting") db1 db1 db1 eq_refl))) as H.
    pose proof (proj2 (H dave db1 _ eq_refl eq_refl eq_refl eq_refl)) as H'.
    rewrite (H' (Some (rename_b ∪ dave)) _ _ eq_refl eq_refl eq_refl).
    reflexivity.
  - pose proof (proj2 (proj2 (named_updateByIdAsync_connection Mem.store
                         users "4" rename_b id (Some rejected)
                         (Some "reporting") db1 db1 db1 eq_refl))) as H.
    pose proof (proj1 (H dave db1 _ eq_refl eq_refl eq_refl eq_refl)) as H'.
    rewrite (H' _ eq_refl). reflexivity.
  - pose proof (proj1 (named_updateByIdAsync_connection Mem.store
                         users "1" rename_b id (Some fulfilled)
                         (Some "reporting") db1 db1 db1 eq_refl)) as H.
    rewrite (H eq_refl). reflexivity.
  - pose proof (proj1 (proj2 (named_updateByIdAsync_connection (T:=unit)
                         Mem.store users "4" rename_b nickname None
                         (Some "reporting") db1 db1 db1 eq_refl))) as H.
    rewrite (H dave eq_refl eq_refl). reflexivity.
Defined.

End MoreOnTheMemoryStore.
